(** * pygame-sandbox: controllers and the mover

    A shallow embedding of [src/src/controller.py] and [src/sandbox/model.py].

    Numbers.  The Python values are [int] or [float]; they are embedded as
    rationals [Q].  Every finite reading is a rational, and the tests the
    code makes on readings ([abs(v) > d], [v > 0], [v < 0], truthiness) are
    exact on them.  The additions and subtractions of the mover are kept as
    the expressions the source writes.

    Mutation.  Python objects are mutated in place; here every method takes
    the object's state and gives the new one.  The two survey methods call
    into pygame, which may raise, so they live in a monad that threads the
    controller and keeps whatever was mutated before an exception. *)

From Stdlib Require Import ZArith QArith Qabs Bool List Lia Lqa.

Local Open Scope Q_scope.

(** ** Exceptions and the state-and-exception monad *)

Inductive exception : Type :=
| IndexError    (* indexing a list out of range *)
| pygame_error. (* raised by the pygame calls *)

Inductive Exc (A : Type) : Type :=
| Ok (a : A)
| Raise (e : exception).

Arguments Ok {A} a.
Arguments Raise {A} e.

(** A method of an object of state [S]: it ends normally with a value or
    raises, and in both cases leaves a state behind. *)
Definition M (S A : Type) : Type := S -> Exc A * S.

Definition ret {S A} (a : A) : M S A := fun s => (Ok a, s).

Definition bind {S A B} (m : M S A) (k : A -> M S B) : M S B :=
  fun s =>
    match m s with
    | (Ok a, s') => k a s'
    | (Raise e, s') => (Raise e, s')
    end.

(** An external call: its outcome is given, the object is untouched. *)
Definition call {S A} (r : Exc A) : M S A := fun s => (r, s).

Definition gets {S A} (f : S -> A) : M S A := fun s => (Ok (f s), s).

Definition modify {S} (f : S -> S) : M S unit := fun s => (Ok tt, f s).

(** [if b: m] *)
Definition when {S} (b : bool) (m : M S unit) : M S unit :=
  if b then m else ret tt.

Definition outcome {S A} (m : M S A) (s : S) : Exc A := fst (m s).
Definition exec {S A} (m : M S A) (s : S) : S := snd (m s).

Declare Scope py_scope.
Delimit Scope py_scope with py.
Notation "x <- m ;; k" := (bind m (fun x => k))
  (at level 61, m at next level, right associativity) : py_scope.
Notation "m ;; k" := (bind m (fun _ => k))
  (at level 61, right associativity) : py_scope.

(** ** Comparisons of readings *)

(** [a > b] *)
Definition Qgtb (a b : Q) : bool := negb (Qle_bool a b).
(** [a < b] *)
Definition Qltb (a b : Q) : bool := Qgtb b a.
(** Truth value of a number: [bool(v)], that is [v != 0]. *)
Definition truthy (v : Q) : bool := negb (Qeq_bool v 0).

(** ** [class Control] *)

Module Control.

(** The fields [_key_number], [_activated], [_value]; the projections are
    the read-only properties of the same names. *)
Record t : Type := mk {
  key_number : Z;
  activated : bool;
  value : Q
}.

Definition init (key_number : Z) : t :=
  {| key_number := key_number; activated := false; value := 0 |}.

Definition update_key_number (self : t) (key_number : Z) : t :=
  {| key_number := key_number;
     activated := activated self;
     value := value self |}.

(** The default of the parameter [value] of [activate]. *)
Definition default_value : Q := 1.

Definition activate (self : t) (value : Q) : t :=
  {| key_number := key_number self; activated := true; value := value |}.

Definition deactivate (self : t) : t :=
  {| key_number := key_number self; activated := false; value := 0 |}.

End Control.

(** ** [class Controller] *)

Module Controller.

(** The four fields [_move_up], [_move_right], [_move_down], [_move_left];
    the projections are the property getters. *)
Record t : Type := mk {
  move_up : Control.t;
  move_right : Control.t;
  move_down : Control.t;
  move_left : Control.t
}.

Definition init : t :=
  {| move_up := Control.init 0;
     move_right := Control.init 0;
     move_down := Control.init 0;
     move_left := Control.init 0 |}.

(** The property setters. *)
Definition set_move_right (self : t) (value : Control.t) : t :=
  {| move_up := move_up self; move_right := value;
     move_down := move_down self; move_left := move_left self |}.

Definition set_move_left (self : t) (value : Control.t) : t :=
  {| move_up := move_up self; move_right := move_right self;
     move_down := move_down self; move_left := value |}.

Definition set_move_up (self : t) (value : Control.t) : t :=
  {| move_up := value; move_right := move_right self;
     move_down := move_down self; move_left := move_left self |}.

Definition set_move_down (self : t) (value : Control.t) : t :=
  {| move_up := move_up self; move_right := move_right self;
     move_down := value; move_left := move_left self |}.

(** [self._move_right.m()] and its three siblings: a method [m] of
    [Control] run on the object a field holds. *)
Definition on_move_right (m : Control.t -> Control.t) (self : t) : t :=
  set_move_right self (m (move_right self)).
Definition on_move_left (m : Control.t -> Control.t) (self : t) : t :=
  set_move_left self (m (move_left self)).
Definition on_move_up (m : Control.t -> Control.t) (self : t) : t :=
  set_move_up self (m (move_up self)).
Definition on_move_down (m : Control.t -> Control.t) (self : t) : t :=
  set_move_down self (m (move_down self)).

Definition deactivate_all_controls (self : t) : t :=
  let self := on_move_right Control.deactivate self in
  let self := on_move_left Control.deactivate self in
  let self := on_move_up Control.deactivate self in
  on_move_down Control.deactivate self.

End Controller.

(** ** [model.Point] and [model.Character] *)

Module Point.
Record t : Type := mk { x : Q; y : Q }.
(** [Point()] : both coordinates default to 0. *)
Definition init_default : t := {| x := 0; y := 0 |}.
End Point.

Module Character.
Record t : Type := mk { location : Point.t }.

Definition init (start_point : Point.t) : t := {| location := start_point |}.

Definition move_to (self : t) (point : Point.t) : t :=
  {| location := point |}.
End Character.

(** ** [class Mover] *)

Module Mover.

(** [_controller] is a reference to the live controller: a mover is built
    from the state the controller has when [move_character] is called. *)
Record t : Type := mk { _controller : Controller.t }.

Definition init (controller : Controller.t) : t :=
  {| _controller := controller |}.

Definition _get_new_x (self : t) (start_x speed : Q) : Q :=
  if Control.activated (Controller.move_right (_controller self)) then
    start_x + Control.value (Controller.move_right (_controller self)) + speed
  else if Control.activated (Controller.move_left (_controller self)) then
    start_x - Qabs (Control.value (Controller.move_left (_controller self)))
      - speed
  else start_x.

Definition _get_new_y (self : t) (start_y speed : Q) : Q :=
  if Control.activated (Controller.move_up (_controller self)) then
    start_y - Qabs (Control.value (Controller.move_up (_controller self)))
      - speed
  else if Control.activated (Controller.move_down (_controller self)) then
    start_y + Control.value (Controller.move_down (_controller self)) + speed
  else start_y.

(** The local [speed = 0] of [move_character]. *)
Definition speed : Q := 0.

Definition move_character (self : t) (character : Character.t)
  : Character.t :=
  Character.move_to character
    {| Point.x := _get_new_x self (Point.x (Character.location character)) speed;
       Point.y := _get_new_y self (Point.y (Character.location character)) speed |}.

End Mover.

(** ** The settings a keyboard controller is built from *)

Module settings.

(** Modelled from the spec: the module [settings] is not among the sources.
    Its [ControlSettings] supplies, per direction, a raw key code, read by
    the controller as [settings.right.value] and so on. *)
Record Setting : Type := mkSetting { value : Z }.

Record ControlSettings : Type := mk {
  right : Setting;
  up : Setting;
  left : Setting;
  down : Setting
}.

End settings.

(** ** The host's devices *)

(** What [pygame.key.get_pressed()] gives when the survey runs: the table of
    pressed keys, or an exception.  The table answers for every key code
    ([keys[k]] is the pressed flag of the key [k]). *)
Record Keyboard : Type := mkKeyboard {
  get_pressed : Exc (Z -> bool)
}.

(** The state of the joystick object held in [_game_pad] when the survey
    runs: [get_axis] gives the reading of an axis, or raises. *)
Record Joystick : Type := mkJoystick {
  get_axis : Z -> Exc Q
}.

(** ** [class PygameKeyboardController(Controller)] *)

Module PygameKeyboardController.

(** The field [_settings] and the four controls of the base class. *)
Record t : Type := mk {
  _settings : settings.ControlSettings;
  base : Controller.t
}.

Definition init (st : settings.ControlSettings) : t :=
  {| _settings := st;
     base :=
       {| Controller.move_right := Control.init (settings.value (settings.right st));
          Controller.move_up := Control.init (settings.value (settings.up st));
          Controller.move_left := Control.init (settings.value (settings.left st));
          Controller.move_down := Control.init (settings.value (settings.down st)) |} |}.

(** A method of the base class run on this object. *)
Definition inherited (f : Controller.t -> Controller.t) (self : t) : t :=
  {| _settings := _settings self; base := f (base self) |}.

Definition deactivate_all_controls : t -> t :=
  inherited Controller.deactivate_all_controls.

Definition conduct_survey_of_controls (host : Keyboard) : M t unit :=
  (keys <- call (get_pressed host) ;;
   k <- gets (fun self => Control.key_number (Controller.move_right (base self))) ;;
   when (keys k)
     (modify (inherited (Controller.on_move_right
        (fun c => Control.activate c Control.default_value)))) ;;
   k <- gets (fun self => Control.key_number (Controller.move_left (base self))) ;;
   when (keys k)
     (modify (inherited (Controller.on_move_left
        (fun c => Control.activate c Control.default_value)))) ;;
   k <- gets (fun self => Control.key_number (Controller.move_up (base self))) ;;
   when (keys k)
     (modify (inherited (Controller.on_move_up
        (fun c => Control.activate c Control.default_value)))) ;;
   k <- gets (fun self => Control.key_number (Controller.move_down (base self))) ;;
   when (keys k)
     (modify (inherited (Controller.on_move_down
        (fun c => Control.activate c Control.default_value)))))%py.

End PygameKeyboardController.

(** ** [class GamePadAxe(Enum)] *)

Module GamePadAxe.

Inductive t : Type :=
| LEFT_STICK_X
| LEFT_STICK_Y
| RIGHT_STICK_X
| RIGHT_STICK_Y
| LEFT_TRIGGER
| RIGHT_TRIGGER.

Definition value (a : t) : Z :=
  match a with
  | LEFT_STICK_X => 0
  | LEFT_STICK_Y => 1
  | RIGHT_STICK_X => 2
  | RIGHT_STICK_Y => 3
  | LEFT_TRIGGER => 4
  | RIGHT_TRIGGER => 5
  end%Z.

End GamePadAxe.

(** ** [class PygameGamepadController(Controller)] *)

Module PygameGamepadController.

(** [_game_pad] is the index of the joystick the controller holds,
    [_dead_zone] the threshold, [base] the four controls. *)
Record t : Type := mk {
  _game_pad : nat;
  _dead_zone : Q;
  base : Controller.t
}.

(** The body of [__init__] once the joystick [pad] has been picked. *)
Definition with_game_pad (pad : nat) : t :=
  {| _game_pad := pad;
     _dead_zone := 5 # 100;
     base :=
       {| Controller.move_up :=
            Control.init (GamePadAxe.value GamePadAxe.LEFT_STICK_Y);
          Controller.move_right :=
            Control.init (GamePadAxe.value GamePadAxe.LEFT_STICK_X);
          Controller.move_down :=
            Control.init (GamePadAxe.value GamePadAxe.LEFT_STICK_Y);
          Controller.move_left :=
            Control.init (GamePadAxe.value GamePadAxe.LEFT_STICK_X) |} |}.

(** [get_count] is what [pygame.joystick.get_count()] returns.  The list
    of the joysticks [0 .. get_count - 1] is indexed at 0, which raises
    on the empty list. *)
Definition init (get_count : nat) : Exc t :=
  match nth_error (seq 0 get_count) 0 with
  | None => Raise IndexError
  | Some pad => Ok (with_game_pad pad)
  end.

Definition inherited (f : Controller.t -> Controller.t) (self : t) : t :=
  {| _game_pad := _game_pad self;
     _dead_zone := _dead_zone self;
     base := f (base self) |}.

Definition deactivate_all_controls : t -> t :=
  inherited Controller.deactivate_all_controls.

Definition conduct_survey_of_controls (pad : Joystick) : M t unit :=
  (value <- call (get_axis pad (GamePadAxe.value GamePadAxe.LEFT_STICK_X)) ;;
   when (truthy value)
     (dead_zone <- gets _dead_zone ;;
      when (Qgtb (Qabs value) dead_zone)
        (if Qgtb value 0 then
           modify (inherited (Controller.on_move_right
             (fun c => Control.activate c value)))
         else
           modify (inherited (Controller.on_move_left
             (fun c => Control.activate c value))))) ;;
   value <- call (get_axis pad (GamePadAxe.value GamePadAxe.LEFT_STICK_Y)) ;;
   when (truthy value)
     (dead_zone <- gets _dead_zone ;;
      when (Qgtb (Qabs value) dead_zone)
        (if Qltb value 0 then
           modify (inherited (Controller.on_move_up
             (fun c => Control.activate c value)))
         else
           modify (inherited (Controller.on_move_down
             (fun c => Control.activate c value))))))%py.

End PygameGamepadController.

(** ** Views used in the statements *)

(** The state of a Control: its flag and its value. *)
Definition control_state (c : Control.t) : bool * Q :=
  (Control.activated c, Control.value c).

(** The states of the four controls, in the order up, right, down, left. *)
Definition controls_state (c : Controller.t)
  : (bool * Q) * (bool * Q) * (bool * Q) * (bool * Q) :=
  (control_state (Controller.move_up c),
   control_state (Controller.move_right c),
   control_state (Controller.move_down c),
   control_state (Controller.move_left c)).

(** The key codes the four controls are bound to, same order. *)
Definition bindings (c : Controller.t) : Z * Z * Z * Z :=
  (Control.key_number (Controller.move_up c),
   Control.key_number (Controller.move_right c),
   Control.key_number (Controller.move_down c),
   Control.key_number (Controller.move_left c)).

(** The invariant of a Control: [activated == false] implies [value == 0]. *)
Definition control_inv (c : Control.t) : Prop :=
  Control.activated c = false -> Control.value c == 0.

Definition controller_inv (c : Controller.t) : Prop :=
  control_inv (Controller.move_up c) /\
  control_inv (Controller.move_right c) /\
  control_inv (Controller.move_down c) /\
  control_inv (Controller.move_left c).

(** No control is activated. *)
Definition all_deactivated (c : Controller.t) : Prop :=
  Control.activated (Controller.move_up c) = false /\
  Control.activated (Controller.move_right c) = false /\
  Control.activated (Controller.move_down c) = false /\
  Control.activated (Controller.move_left c) = false.

(** Every control activated in [c] is activated in [c']. *)
Definition stays_activated (c c' : Controller.t) : Prop :=
  (Control.activated (Controller.move_up c) = true ->
   Control.activated (Controller.move_up c') = true) /\
  (Control.activated (Controller.move_right c) = true ->
   Control.activated (Controller.move_right c') = true) /\
  (Control.activated (Controller.move_down c) = true ->
   Control.activated (Controller.move_down c') = true) /\
  (Control.activated (Controller.move_left c) = true ->
   Control.activated (Controller.move_left c') = true).

(** A keyboard whose table is [keys], a joystick whose axes read [x], [y]
    (every other axis reads 0). *)
Definition keyboard_with (keys : Z -> bool) : Keyboard :=
  {| get_pressed := Ok keys |}.

Definition joystick_with (x y : Q) : Joystick :=
  {| get_axis := fun a =>
       if (a =? GamePadAxe.value GamePadAxe.LEFT_STICK_X)%Z then Ok x
       else if (a =? GamePadAxe.value GamePadAxe.LEFT_STICK_Y)%Z then Ok y
       else Ok 0 |}.

(** Devices whose polling call raises. *)
Definition keyboard_unavailable : Keyboard :=
  {| get_pressed := Raise pygame_error |}.

Definition joystick_unavailable : Joystick :=
  {| get_axis := fun _ => Raise pygame_error |}.

(** Only the key [k] is pressed. *)
Definition only_key (k : Z) : Z -> bool := fun k' => (k' =? k)%Z.
Definition no_key : Z -> bool := fun _ => false.

(** The key codes of [tests/change_controllers.py]. *)
Definition arrow_keys : settings.ControlSettings :=
  {| settings.right := settings.mkSetting 1073741903;
     settings.left := settings.mkSetting 1073741904;
     settings.up := settings.mkSetting 1073741906;
     settings.down := settings.mkSetting 1073741905 |}.

(** ** States a controller gets into by its own methods *)

(** The keyboard controller built from [st], then surveyed and reset any
    number of times, under any state of the device. *)
Inductive keyboard_reachable (st : settings.ControlSettings)
  : PygameKeyboardController.t -> Prop :=
| keyboard_reachable_init :
    keyboard_reachable st (PygameKeyboardController.init st)
| keyboard_reachable_survey (host : Keyboard) (s : PygameKeyboardController.t) :
    keyboard_reachable st s ->
    keyboard_reachable st
      (exec (PygameKeyboardController.conduct_survey_of_controls host) s)
| keyboard_reachable_reset (s : PygameKeyboardController.t) :
    keyboard_reachable st s ->
    keyboard_reachable st (PygameKeyboardController.deactivate_all_controls s).

(** The same for the gamepad controller. *)
Inductive gamepad_reachable : PygameGamepadController.t -> Prop :=
| gamepad_reachable_init (n : nat) (g : PygameGamepadController.t) :
    PygameGamepadController.init n = Ok g -> gamepad_reachable g
| gamepad_reachable_survey (pad : Joystick) (s : PygameGamepadController.t) :
    gamepad_reachable s ->
    gamepad_reachable
      (exec (PygameGamepadController.conduct_survey_of_controls pad) s)
| gamepad_reachable_reset (s : PygameGamepadController.t) :
    gamepad_reachable s ->
    gamepad_reachable (PygameGamepadController.deactivate_all_controls s).

(** A digital control: deactivated with value 0, or activated with 1. *)
Definition digital (c : Control.t) : Prop :=
  control_state c = (false, 0) \/ control_state c = (true, 1).

(** Surveys in a row with no reset in between, one per table of [tables]. *)
Definition keyboard_surveys (tables : list (Z -> bool))
           (s : PygameKeyboardController.t) : PygameKeyboardController.t :=
  fold_left
    (fun s keys =>
       exec (PygameKeyboardController.conduct_survey_of_controls
               (keyboard_with keys)) s)
    tables s.

(** ** [src/main.py]: the character moved straight from the key table *)

Module main.


(** A [pygame.Rect]: integer position and size. *)
Record Rect : Type := mkRect { x : Z; y : Z; w : Z; h : Z }.

(** The field [rect] of [Character]; [surface] is only drawn. *)
Record Character : Type := mk { rect : Rect }.




End main.

(** ** [tests/change_controllers.py]: cycling through the controllers *)

Module Test.

Section WithControllers.

(** The controllers of the list come from a module that is not among the
    sources; their type and the flag [controller.accept.activated] are
    parameters. *)
Variable Controller_t : Type.
Variable accept_activated : Controller_t -> bool.

(** The fields [_controllers], [_controller_index], [_controller]. *)
Record t : Type := mk {
  _controllers : list Controller_t;
  _controller_index : nat;
  _controller : Controller_t
}.

(** [l[i]] *)
Definition getitem (l : list Controller_t) (i : nat) : Exc Controller_t :=
  match nth_error l i with
  | Some c => Ok c
  | None => Raise IndexError
  end.

(** [__init__], for the list [controllers] it builds. *)
Definition init (controllers : list Controller_t) : Exc t :=
  match getitem controllers 0 with
  | Ok c =>
      Ok {| _controllers := controllers;
            _controller_index := 0;
            _controller := c |}
  | Raise e => Raise e
  end.

Definition set_controller_index (i : nat) (self : t) : t :=
  {| _controllers := _controllers self;
     _controller_index := i;
     _controller := _controller self |}.

Definition set_controller (c : Controller_t) (self : t) : t :=
  {| _controllers := _controllers self;
     _controller_index := _controller_index self;
     _controller := c |}.

Definition _change_controller : M t unit :=
  (c <- gets _controller ;;
   when (accept_activated c)
     (i <- gets _controller_index ;;
      modify (set_controller_index (i + 1)) ;;
      i <- gets _controller_index ;;
      n <- gets (fun self => length (_controllers self)) ;;
      when (i =? n)%nat (modify (set_controller_index 0)) ;;
      i <- gets _controller_index ;;
      l <- gets _controllers ;;
      c <- call (getitem l i) ;;
      modify (set_controller c)))%py%nat.

End WithControllers.

End Test.

(** The index names the current controller. *)
Definition Test_inv {C : Type} (s : Test.t C) : Prop :=
  nth_error (Test._controllers C s) (Test._controller_index C s)
  = Some (Test._controller C s).

(** * Properties *)

(** ** The comparisons *)

Lemma Qgtb_true_iff (a b : Q) : Qgtb a b = true <-> b < a.
Proof.
  unfold Qgtb. rewrite negb_true_iff. split.
  - intros H. apply Qnot_le_lt. intros Hle.
    apply Qle_bool_iff in Hle. congruence.
  - intros H. destruct (Qle_bool a b) eqn:E; [|reflexivity].
    apply Qle_bool_iff in E. exfalso. exact (Qlt_not_le _ _ H E).
Qed.

Lemma Qgtb_false_iff (a b : Q) : Qgtb a b = false <-> a <= b.
Proof.
  unfold Qgtb. rewrite negb_false_iff. apply Qle_bool_iff.
Qed.

Lemma Qltb_true_iff (a b : Q) : Qltb a b = true <-> a < b.
Proof. unfold Qltb. apply Qgtb_true_iff. Qed.

Lemma truthy_true_iff (v : Q) : truthy v = true <-> ~ v == 0.
Proof.
  unfold truthy. rewrite negb_true_iff. split.
  - intros H. apply Qeq_bool_neq. exact H.
  - intros H. destruct (Qeq_bool v 0) eqn:E; [|reflexivity].
    apply Qeq_bool_iff in E. contradiction.
Qed.

Lemma truthy_false_iff (v : Q) : truthy v = false <-> v == 0.
Proof.
  unfold truthy. rewrite negb_false_iff. apply Qeq_bool_iff.
Qed.

(** ** Control *)

Lemma control_inv_init (k : Z) : control_inv (Control.init k).
Proof. intros _. simpl. reflexivity. Qed.

Lemma control_inv_activate (c : Control.t) (v : Q) :
  control_inv (Control.activate c v).
Proof. intros H. simpl in H. discriminate. Qed.

Lemma control_inv_deactivate (c : Control.t) :
  control_inv (Control.deactivate c).
Proof. intros _. simpl. reflexivity. Qed.

Lemma control_inv_update_key_number (c : Control.t) (k : Z) :
  control_inv c -> control_inv (Control.update_key_number c k).
Proof. intros H. exact H. Qed.

Lemma controller_inv_deactivate_all (c : Controller.t) :
  controller_inv (Controller.deactivate_all_controls c).
Proof.
  repeat split; apply control_inv_deactivate.
Qed.

(** ** Mover *)

(** C4. [move_character] moves the character to the point whose [x] is
    [start_x + right.value + speed] when [right] is activated, whatever
    [left] is, [start_x - abs(left.value) - speed] when only [left] is
    activated, and [start_x] when neither is; whose [y] is
    [start_y - abs(up.value) - speed] when [up] is activated, whatever
    [down] is, [start_y + down.value + speed] when only [down] is, and
    [start_y] when neither is.  [speed] is the local constant of
    [move_character]. *)
Theorem move_character_priority (m : Mover.t) (ch : Character.t) :
  let c := Mover._controller m in
  let start_x := Point.x (Character.location ch) in
  let start_y := Point.y (Character.location ch) in
  let new_x := Point.x (Character.location (Mover.move_character m ch)) in
  let new_y := Point.y (Character.location (Mover.move_character m ch)) in
  (Control.activated (Controller.move_right c) = true ->
     new_x = start_x + Control.value (Controller.move_right c) + Mover.speed) /\
  (Control.activated (Controller.move_right c) = false ->
   Control.activated (Controller.move_left c) = true ->
     new_x = start_x - Qabs (Control.value (Controller.move_left c)) - Mover.speed) /\
  (Control.activated (Controller.move_right c) = false ->
   Control.activated (Controller.move_left c) = false ->
     new_x = start_x) /\
  (Control.activated (Controller.move_up c) = true ->
     new_y = start_y - Qabs (Control.value (Controller.move_up c)) - Mover.speed) /\
  (Control.activated (Controller.move_up c) = false ->
   Control.activated (Controller.move_down c) = true ->
     new_y = start_y + Control.value (Controller.move_down c) + Mover.speed) /\
  (Control.activated (Controller.move_up c) = false ->
   Control.activated (Controller.move_down c) = false ->
     new_y = start_y).
Proof.
  cbv zeta. unfold Mover.move_character, Mover._get_new_x, Mover._get_new_y.
  cbn [Character.move_to Character.location Point.x Point.y].
  repeat split.
  - intros ->. reflexivity.
  - intros -> ->. reflexivity.
  - intros -> ->. reflexivity.
  - intros ->. reflexivity.
  - intros -> ->. reflexivity.
  - intros -> ->. reflexivity.
Qed.

(** C5. When none of the four controls is activated, the character's
    location after [move_character] is its location before.  The function
    is total: there is no control state on which it has no result. *)
Theorem move_character_noop (m : Mover.t) (ch : Character.t) :
  all_deactivated (Mover._controller m) ->
  Character.location (Mover.move_character m ch) = Character.location ch.
Proof.
  intros (Hu & Hr & Hd & Hl).
  unfold Mover.move_character, Mover._get_new_x, Mover._get_new_y.
  rewrite Hu, Hr, Hd, Hl. cbn.
  destruct ch as [[x y]]. reflexivity.
Qed.

(** ** Running the surveys *)

#[local] Arguments Qgtb : simpl never.
#[local] Arguments Qltb : simpl never.
#[local] Arguments truthy : simpl never.
#[local] Arguments Qabs : simpl never.

Ltac unfold_survey :=
  unfold PygameKeyboardController.conduct_survey_of_controls,
         PygameGamepadController.conduct_survey_of_controls,
         PygameKeyboardController.deactivate_all_controls,
         PygameGamepadController.deactivate_all_controls,
         Controller.deactivate_all_controls,
         exec, outcome, bind, call, gets, modify, when, ret,
         PygameKeyboardController.inherited,
         PygameGamepadController.inherited,
         Controller.on_move_right, Controller.on_move_left,
         Controller.on_move_up, Controller.on_move_down,
         Controller.set_move_right, Controller.set_move_left,
         Controller.set_move_up, Controller.set_move_down in *;
  cbn in *.

Ltac split_tests :=
  repeat match goal with
         | |- context [if ?b then _ else _] => destruct b eqn:?; cbn
         end.

(** The keyboard survey on a table that can be read: it ends normally,
    and each control is activated with 1 when its key is pressed and is the
    control it was otherwise. *)
Lemma keyboard_survey_run (host : Keyboard) (keys : Z -> bool)
      (s : PygameKeyboardController.t) :
  get_pressed host = Ok keys ->
  let b := PygameKeyboardController.base s in
  PygameKeyboardController.conduct_survey_of_controls host s =
  (Ok tt,
   {| PygameKeyboardController._settings := PygameKeyboardController._settings s;
      PygameKeyboardController.base :=
        {| Controller.move_up :=
             if keys (Control.key_number (Controller.move_up b))
             then Control.activate (Controller.move_up b) 1
             else Controller.move_up b;
           Controller.move_right :=
             if keys (Control.key_number (Controller.move_right b))
             then Control.activate (Controller.move_right b) 1
             else Controller.move_right b;
           Controller.move_down :=
             if keys (Control.key_number (Controller.move_down b))
             then Control.activate (Controller.move_down b) 1
             else Controller.move_down b;
           Controller.move_left :=
             if keys (Control.key_number (Controller.move_left b))
             then Control.activate (Controller.move_left b) 1
             else Controller.move_left b |} |}).
Proof.
  intros Hk. destruct s as [st [u r d l]]. unfold_survey. rewrite Hk. cbn.
  destruct (keys (Control.key_number r)); cbn;
  destruct (keys (Control.key_number l)); cbn;
  destruct (keys (Control.key_number u)); cbn;
  destruct (keys (Control.key_number d)); reflexivity.
Qed.

(** When reading the table raises, the survey raises the same exception
    and has touched nothing. *)
Lemma keyboard_survey_raise (host : Keyboard) (e : exception)
      (s : PygameKeyboardController.t) :
  get_pressed host = Raise e ->
  PygameKeyboardController.conduct_survey_of_controls host s = (Raise e, s).
Proof.
  intros Hk. unfold_survey. rewrite Hk. reflexivity.
Qed.

(** The gamepad survey on a joystick both of whose axes can be read: it
    ends normally; on each axis the control on the side of the reading is
    activated with the reading itself when the reading is not zero and
    beyond the dead zone, and every other control is the control it was. *)
Lemma gamepad_survey_run (pad : Joystick) (vx vy : Q)
      (s : PygameGamepadController.t) :
  get_axis pad (GamePadAxe.value GamePadAxe.LEFT_STICK_X) = Ok vx ->
  get_axis pad (GamePadAxe.value GamePadAxe.LEFT_STICK_Y) = Ok vy ->
  let b := PygameGamepadController.base s in
  let d := PygameGamepadController._dead_zone s in
  PygameGamepadController.conduct_survey_of_controls pad s =
  (Ok tt,
   {| PygameGamepadController._game_pad := PygameGamepadController._game_pad s;
      PygameGamepadController._dead_zone := d;
      PygameGamepadController.base :=
        {| Controller.move_up :=
             if truthy vy && Qgtb (Qabs vy) d && Qltb vy 0
             then Control.activate (Controller.move_up b) vy
             else Controller.move_up b;
           Controller.move_right :=
             if truthy vx && Qgtb (Qabs vx) d && Qgtb vx 0
             then Control.activate (Controller.move_right b) vx
             else Controller.move_right b;
           Controller.move_down :=
             if truthy vy && Qgtb (Qabs vy) d && negb (Qltb vy 0)
             then Control.activate (Controller.move_down b) vy
             else Controller.move_down b;
           Controller.move_left :=
             if truthy vx && Qgtb (Qabs vx) d && negb (Qgtb vx 0)
             then Control.activate (Controller.move_left b) vx
             else Controller.move_left b |} |}).
Proof.
  intros Hx Hy. destruct s as [g dz [u r d l]].
  unfold_survey. rewrite Hx. cbn.
  destruct (truthy vx); cbn;
    [destruct (Qgtb (Qabs vx) dz); cbn; [destruct (Qgtb vx 0); cbn|]|];
    rewrite Hy; cbn;
    (destruct (truthy vy); cbn;
     [destruct (Qgtb (Qabs vy) dz); cbn; [destruct (Qltb vy 0); cbn|]|]);
    reflexivity.
Qed.

(** When reading the horizontal axis raises, the survey raises the same
    exception and has touched nothing. *)
Lemma gamepad_survey_raise_x (pad : Joystick) (e : exception)
      (s : PygameGamepadController.t) :
  get_axis pad (GamePadAxe.value GamePadAxe.LEFT_STICK_X) = Raise e ->
  PygameGamepadController.conduct_survey_of_controls pad s = (Raise e, s).
Proof.
  intros Hx. unfold_survey. rewrite Hx. reflexivity.
Qed.

(** When the horizontal axis is read and reading the vertical one raises,
    the survey raises the same exception after the horizontal axis has had
    its effect; [up] and [down] are untouched. *)
Lemma gamepad_survey_raise_y (pad : Joystick) (vx : Q) (e : exception)
      (s : PygameGamepadController.t) :
  get_axis pad (GamePadAxe.value GamePadAxe.LEFT_STICK_X) = Ok vx ->
  get_axis pad (GamePadAxe.value GamePadAxe.LEFT_STICK_Y) = Raise e ->
  let b := PygameGamepadController.base s in
  let d := PygameGamepadController._dead_zone s in
  PygameGamepadController.conduct_survey_of_controls pad s =
  (Raise e,
   {| PygameGamepadController._game_pad := PygameGamepadController._game_pad s;
      PygameGamepadController._dead_zone := d;
      PygameGamepadController.base :=
        {| Controller.move_up := Controller.move_up b;
           Controller.move_right :=
             if truthy vx && Qgtb (Qabs vx) d && Qgtb vx 0
             then Control.activate (Controller.move_right b) vx
             else Controller.move_right b;
           Controller.move_down := Controller.move_down b;
           Controller.move_left :=
             if truthy vx && Qgtb (Qabs vx) d && negb (Qgtb vx 0)
             then Control.activate (Controller.move_left b) vx
             else Controller.move_left b |} |}).
Proof.
  intros Hx Hy. destruct s as [g dz [u r d l]].
  unfold_survey. rewrite Hx. cbn.
  destruct (truthy vx); cbn;
    [destruct (Qgtb (Qabs vx) dz); cbn; [destruct (Qgtb vx 0); cbn|]|];
    rewrite Hy; reflexivity.
Qed.

(** The axes of [joystick_with]. *)
Lemma joystick_with_x (x y : Q) :
  get_axis (joystick_with x y) (GamePadAxe.value GamePadAxe.LEFT_STICK_X) = Ok x.
Proof. reflexivity. Qed.

Lemma joystick_with_y (x y : Q) :
  get_axis (joystick_with x y) (GamePadAxe.value GamePadAxe.LEFT_STICK_Y) = Ok y.
Proof. reflexivity. Qed.

(** The tests of the gamepad survey, by the sign of the reading. *)
Lemma tests_positive (v d : Q) :
  d < Qabs v -> 0 < v ->
  truthy v && Qgtb (Qabs v) d = true /\ Qgtb v 0 = true /\ Qltb v 0 = false.
Proof.
  intros Hd Hv. repeat split.
  - apply andb_true_iff. split.
    + apply truthy_true_iff. intros E. rewrite E in Hv.
      exact (Qlt_irrefl _ Hv).
    + apply Qgtb_true_iff. exact Hd.
  - apply Qgtb_true_iff. exact Hv.
  - apply Qgtb_false_iff. apply Qlt_le_weak. exact Hv.
Qed.

Lemma tests_negative (v d : Q) :
  d < Qabs v -> v < 0 ->
  truthy v && Qgtb (Qabs v) d = true /\ Qgtb v 0 = false /\ Qltb v 0 = true.
Proof.
  intros Hd Hv. repeat split.
  - apply andb_true_iff. split.
    + apply truthy_true_iff. intros E. rewrite E in Hv.
      exact (Qlt_irrefl _ Hv).
    + apply Qgtb_true_iff. exact Hd.
  - apply Qgtb_false_iff. apply Qlt_le_weak. exact Hv.
  - apply Qltb_true_iff. exact Hv.
Qed.

Lemma tests_zero (v d : Q) :
  v == 0 -> truthy v && Qgtb (Qabs v) d = false.
Proof.
  intros Hv. apply andb_false_iff. left. apply truthy_false_iff. exact Hv.
Qed.

Lemma tests_within (v d : Q) :
  Qabs v <= d -> truthy v && Qgtb (Qabs v) d = false.
Proof.
  intros Hd. apply andb_false_iff. right. apply Qgtb_false_iff. exact Hd.
Qed.

(** ** The gamepad survey and the dead zone *)

(** At a reading of -0.6 after a tick that read 0.6, with the threshold of
    the constructor: the reading is beyond the dead zone, and after the
    survey [left] and [right] are both activated, [right] with the value
    of the tick before, and the value of [left] is the negative reading,
    not its absolute value. *)
Lemma gamepad_survey_stale_and_signed :
  let g0 := PygameGamepadController.with_game_pad 0 in
  let v := -6 # 10 in
  let g1 :=
    exec (PygameGamepadController.conduct_survey_of_controls
            (joystick_with (6 # 10) 0)) g0 in
  let g2 :=
    exec (PygameGamepadController.conduct_survey_of_controls
            (joystick_with v 0)) g1 in
  PygameGamepadController.init 1 = Ok g0 /\
  PygameGamepadController._dead_zone g1 < Qabs v /\
  control_state (Controller.move_left (PygameGamepadController.base g2))
    = (true, v) /\
  ~ Control.value (Controller.move_left (PygameGamepadController.base g2))
      == Qabs v /\
  control_state (Controller.move_right (PygameGamepadController.base g2))
    = (true, 6 # 10).
Proof.
  cbv zeta. repeat split; try reflexivity.
  intros H. vm_compute in H. discriminate.
Qed.

(** C1, as the code has it.  When both axes are read and the reading [v] of
    an axis is beyond the dead zone, the control on the side of the sign of
    [v] ([right] or [down] for [v > 0], [left] or [up] for [v < 0]) becomes
    activated with value [v], the signed reading, and the control on the
    opposite side is the control it was before the survey; a reading of 0,
    which is beyond the threshold only when the threshold is negative,
    leaves both as they were. *)
Theorem gamepad_survey_beyond_dead_zone
        (pad : Joystick) (vx vy : Q) (s : PygameGamepadController.t) :
  get_axis pad (GamePadAxe.value GamePadAxe.LEFT_STICK_X) = Ok vx ->
  get_axis pad (GamePadAxe.value GamePadAxe.LEFT_STICK_Y) = Ok vy ->
  let d := PygameGamepadController._dead_zone s in
  let b := PygameGamepadController.base s in
  let b' :=
    PygameGamepadController.base
      (exec (PygameGamepadController.conduct_survey_of_controls pad) s) in
  (d < Qabs vx ->
     (0 < vx ->
        Controller.move_right b' = Control.activate (Controller.move_right b) vx /\
        Controller.move_left b' = Controller.move_left b) /\
     (vx < 0 ->
        Controller.move_left b' = Control.activate (Controller.move_left b) vx /\
        Controller.move_right b' = Controller.move_right b) /\
     (vx == 0 ->
        Controller.move_right b' = Controller.move_right b /\
        Controller.move_left b' = Controller.move_left b)) /\
  (d < Qabs vy ->
     (0 < vy ->
        Controller.move_down b' = Control.activate (Controller.move_down b) vy /\
        Controller.move_up b' = Controller.move_up b) /\
     (vy < 0 ->
        Controller.move_up b' = Control.activate (Controller.move_up b) vy /\
        Controller.move_down b' = Controller.move_down b) /\
     (vy == 0 ->
        Controller.move_down b' = Controller.move_down b /\
        Controller.move_up b' = Controller.move_up b)).
Proof.
  intros Hx Hy. cbv zeta. unfold exec.
  rewrite (gamepad_survey_run pad vx vy s Hx Hy). cbn.
  split; intros Hd; (split; [|split]); intros Hv.
  all: try (destruct (tests_positive _ _ Hd Hv) as (E1 & E2 & E3)).
  all: try (destruct (tests_negative _ _ Hd Hv) as (E1 & E2 & E3)).
  all: try (pose proof (tests_zero _ (PygameGamepadController._dead_zone s) Hv)
              as E1).
  all: unfold Qltb in *; rewrite ?E1, ?E2, ?E3; split; reflexivity.
Qed.

Lemma gamepad_survey_beyond_dead_zone_witness :
  let s := PygameGamepadController.with_game_pad 0 in
  let b' :=
    PygameGamepadController.base
      (exec (PygameGamepadController.conduct_survey_of_controls
               (joystick_with (6 # 10) (-1))) s) in
  control_state (Controller.move_right b') = (true, 6 # 10) /\
  control_state (Controller.move_up b') = (true, -1).
Proof.
  cbv zeta.
  destruct (gamepad_survey_beyond_dead_zone
              (joystick_with (6 # 10) (-1)) (6 # 10) (-1)
              (PygameGamepadController.with_game_pad 0)
              eq_refl eq_refl) as [Hx Hy].
  destruct (Hx eq_refl) as ((Hr & _) & _).
  { reflexivity. }
  destruct (Hy eq_refl) as (_ & (Hu & _) & _).
  { reflexivity. }
  rewrite Hr, Hu. split; reflexivity.
Defined.

(** At a reading of 0.03 after a tick that read 0.6, with the threshold
    0.05 of the constructor: the reading is within the dead zone, and after
    the survey [right] is still activated. *)
Lemma gamepad_survey_dead_zone_keeps_activation :
  let g0 := PygameGamepadController.with_game_pad 0 in
  let v := 3 # 100 in
  let g1 :=
    exec (PygameGamepadController.conduct_survey_of_controls
            (joystick_with (6 # 10) 0)) g0 in
  let g2 :=
    exec (PygameGamepadController.conduct_survey_of_controls
            (joystick_with v 0)) g1 in
  PygameGamepadController.init 1 = Ok g0 /\
  Qabs v <= PygameGamepadController._dead_zone g1 /\
  control_state (Controller.move_right (PygameGamepadController.base g2))
    = (true, 6 # 10).
Proof.
  cbv zeta. repeat split; try reflexivity.
  intros H. vm_compute in H. discriminate.
Qed.

(** C2, as the code has it.  When both axes are read and the reading of an
    axis is within the dead zone, the two controls sharing that axis are
    after the survey the controls they were before it: deactivated when
    they were deactivated, and not otherwise. *)
Theorem gamepad_survey_within_dead_zone
        (pad : Joystick) (vx vy : Q) (s : PygameGamepadController.t) :
  get_axis pad (GamePadAxe.value GamePadAxe.LEFT_STICK_X) = Ok vx ->
  get_axis pad (GamePadAxe.value GamePadAxe.LEFT_STICK_Y) = Ok vy ->
  let d := PygameGamepadController._dead_zone s in
  let b := PygameGamepadController.base s in
  let b' :=
    PygameGamepadController.base
      (exec (PygameGamepadController.conduct_survey_of_controls pad) s) in
  (Qabs vx <= d ->
     Controller.move_right b' = Controller.move_right b /\
     Controller.move_left b' = Controller.move_left b) /\
  (Qabs vy <= d ->
     Controller.move_up b' = Controller.move_up b /\
     Controller.move_down b' = Controller.move_down b).
Proof.
  intros Hx Hy. cbv zeta. unfold exec.
  rewrite (gamepad_survey_run pad vx vy s Hx Hy). cbn.
  split; intros Hd; rewrite (tests_within _ _ Hd); split; reflexivity.
Qed.

Lemma gamepad_survey_within_dead_zone_witness :
  let s := PygameGamepadController.with_game_pad 0 in
  let b' :=
    PygameGamepadController.base
      (exec (PygameGamepadController.conduct_survey_of_controls
               (joystick_with (3 # 100) (-5 # 100))) s) in
  all_deactivated b'.
Proof.
  cbv zeta.
  destruct (gamepad_survey_within_dead_zone
              (joystick_with (3 # 100) (-5 # 100)) (3 # 100) (-5 # 100)
              (PygameGamepadController.with_game_pad 0)
              eq_refl eq_refl) as [Hx Hy].
  destruct Hx as [Hr Hl].
  { intros H. vm_compute in H. discriminate. }
  destruct Hy as [Hu Hd].
  { intros H. vm_compute in H. discriminate. }
  unfold all_deactivated. rewrite Hr, Hl, Hu, Hd.
  repeat split; reflexivity.
Defined.

(** ** The keyboard survey *)

(** With the right arrow pressed in one tick and no key pressed in the
    next: after the second survey [right] is still activated with value 1,
    although its key is not pressed, while a controller that was never
    surveyed before has [right] deactivated under the same table. *)
Lemma keyboard_survey_keeps_released_key :
  let k0 := PygameKeyboardController.init arrow_keys in
  let right_key :=
    Control.key_number
      (Controller.move_right (PygameKeyboardController.base k0)) in
  let k1 :=
    exec (PygameKeyboardController.conduct_survey_of_controls
            (keyboard_with (only_key right_key))) k0 in
  let k2 :=
    exec (PygameKeyboardController.conduct_survey_of_controls
            (keyboard_with no_key)) k1 in
  let k2' :=
    exec (PygameKeyboardController.conduct_survey_of_controls
            (keyboard_with no_key)) k0 in
  no_key right_key = false /\
  control_state (Controller.move_right (PygameKeyboardController.base k2))
    = (true, 1) /\
  control_state (Controller.move_right (PygameKeyboardController.base k2'))
    = (false, 0).
Proof.
  cbv zeta. repeat split; reflexivity.
Qed.

(** C3, as the code has it.  For every table of pressed keys and every
    prior state, the survey ends normally; each of the four controls whose
    key the table reports pressed is activated with magnitude 1, and each
    whose key is not pressed is the control it was before the survey. *)
Theorem keyboard_survey_activates_pressed
        (keys : Z -> bool) (s : PygameKeyboardController.t) :
  let b := PygameKeyboardController.base s in
  let m :=
    PygameKeyboardController.conduct_survey_of_controls (keyboard_with keys) in
  let b' := PygameKeyboardController.base (exec m s) in
  outcome m s = Ok tt /\
  Controller.move_up b' =
    (if keys (Control.key_number (Controller.move_up b))
     then Control.activate (Controller.move_up b) Control.default_value
     else Controller.move_up b) /\
  Controller.move_right b' =
    (if keys (Control.key_number (Controller.move_right b))
     then Control.activate (Controller.move_right b) Control.default_value
     else Controller.move_right b) /\
  Controller.move_down b' =
    (if keys (Control.key_number (Controller.move_down b))
     then Control.activate (Controller.move_down b) Control.default_value
     else Controller.move_down b) /\
  Controller.move_left b' =
    (if keys (Control.key_number (Controller.move_left b))
     then Control.activate (Controller.move_left b) Control.default_value
     else Controller.move_left b).
Proof.
  cbv zeta. unfold exec, outcome.
  rewrite (keyboard_survey_run (keyboard_with keys) keys s eq_refl).
  cbn. repeat split; reflexivity.
Qed.

(** ** The invariant of a Control *)

Ltac split4 := split; [|split; [|split]].

Ltac inv_of_test :=
  match goal with
  | |- control_inv (if ?b then _ else _) =>
      destruct b; [apply control_inv_activate | assumption]
  | |- control_inv _ => assumption
  end.

Lemma controller_inv_keyboard_survey
      (host : Keyboard) (s : PygameKeyboardController.t) :
  controller_inv (PygameKeyboardController.base s) ->
  controller_inv
    (PygameKeyboardController.base
       (exec (PygameKeyboardController.conduct_survey_of_controls host) s)).
Proof.
  intros (Hu & Hr & Hd & Hl). unfold exec.
  destruct (get_pressed host) as [keys|e] eqn:Hk.
  - rewrite (keyboard_survey_run host keys s Hk). cbn.
    split4; cbn; inv_of_test.
  - rewrite (keyboard_survey_raise host e s Hk). cbn.
    split4; cbn; assumption.
Qed.

Lemma controller_inv_gamepad_survey
      (pad : Joystick) (s : PygameGamepadController.t) :
  controller_inv (PygameGamepadController.base s) ->
  controller_inv
    (PygameGamepadController.base
       (exec (PygameGamepadController.conduct_survey_of_controls pad) s)).
Proof.
  intros (Hu & Hr & Hd & Hl). unfold exec.
  destruct (get_axis pad (GamePadAxe.value GamePadAxe.LEFT_STICK_X))
    as [vx|e] eqn:Hx.
  - destruct (get_axis pad (GamePadAxe.value GamePadAxe.LEFT_STICK_Y))
      as [vy|e] eqn:Hy.
    + rewrite (gamepad_survey_run pad vx vy s Hx Hy). cbn.
      split4; cbn; inv_of_test.
    + rewrite (gamepad_survey_raise_y pad vx e s Hx Hy). cbn.
      split4; cbn; inv_of_test.
  - rewrite (gamepad_survey_raise_x pad e s Hx). cbn.
    split4; cbn; assumption.
Qed.

(** C6.  [activated == false] implies [value == 0] on a freshly constructed
    Control (so on the four controls of a freshly constructed controller of
    either kind), and the predicate is preserved by [activate] with any
    magnitude, by [deactivate], by [deactivate_all_controls] and by the
    survey of the keyboard and of the gamepad, whatever the device gives. *)
Theorem control_invariant_preserved :
  (forall k, control_inv (Control.init k)) /\
  controller_inv Controller.init /\
  (forall st,
      controller_inv
        (PygameKeyboardController.base (PygameKeyboardController.init st))) /\
  (forall n g,
      PygameGamepadController.init n = Ok g ->
      controller_inv (PygameGamepadController.base g)) /\
  (forall c v, control_inv c -> control_inv (Control.activate c v)) /\
  (forall c, control_inv c -> control_inv (Control.deactivate c)) /\
  (forall c,
      controller_inv c ->
      controller_inv (Controller.deactivate_all_controls c)) /\
  (forall host s,
      controller_inv (PygameKeyboardController.base s) ->
      controller_inv
        (PygameKeyboardController.base
           (exec (PygameKeyboardController.conduct_survey_of_controls host) s))) /\
  (forall pad s,
      controller_inv (PygameGamepadController.base s) ->
      controller_inv
        (PygameGamepadController.base
           (exec (PygameGamepadController.conduct_survey_of_controls pad) s))).
Proof.
  split; [exact control_inv_init|].
  split; [split4; apply control_inv_init|].
  split; [intros st; split4; apply control_inv_init|].
  split.
  { intros n g. unfold PygameGamepadController.init.
    destruct (nth_error (seq 0 n) 0); [|discriminate].
    intros E. injection E as <-. split4; apply control_inv_init. }
  split; [intros c v _; apply control_inv_activate|].
  split; [intros c _; apply control_inv_deactivate|].
  split; [intros c _; apply controller_inv_deactivate_all|].
  split; [exact controller_inv_keyboard_survey|].
  exact controller_inv_gamepad_survey.
Qed.

Lemma control_invariant_preserved_witness :
  let g0 := PygameGamepadController.with_game_pad 0 in
  controller_inv (PygameGamepadController.base g0) /\
  controller_inv
    (PygameGamepadController.base
       (exec (PygameGamepadController.conduct_survey_of_controls
                (joystick_with (-6 # 10) 0)) g0)).
Proof.
  cbv zeta.
  destruct control_invariant_preserved
    as (_ & _ & _ & Hfresh & _ & _ & _ & _ & Hsurvey).
  assert (H0 : controller_inv
                 (PygameGamepadController.base
                    (PygameGamepadController.with_game_pad 0))).
  { apply (Hfresh 1%nat). reflexivity. }
  split.
  - exact H0.
  - apply Hsurvey. exact H0.
Defined.

(** ** Surveying twice *)

Lemma keyboard_survey_idempotent
      (host : Keyboard) (s : PygameKeyboardController.t) :
  let m := PygameKeyboardController.conduct_survey_of_controls host in
  m (exec m s) = m s.
Proof.
  cbv zeta. unfold exec.
  destruct (get_pressed host) as [keys|e] eqn:Hk.
  - rewrite (keyboard_survey_run host keys s Hk). cbn [snd].
    rewrite (keyboard_survey_run host keys _ Hk).
    destruct s as [st [u r d l]]. cbn.
    destruct (keys (Control.key_number u)) eqn:Eu;
      destruct (keys (Control.key_number r)) eqn:Er;
      destruct (keys (Control.key_number d)) eqn:Ed;
      destruct (keys (Control.key_number l)) eqn:El;
      cbn; rewrite ?Eu, ?Er, ?Ed, ?El; reflexivity.
  - rewrite (keyboard_survey_raise host e s Hk). cbn [snd].
    apply keyboard_survey_raise. exact Hk.
Qed.

Lemma gamepad_survey_idempotent
      (pad : Joystick) (s : PygameGamepadController.t) :
  let m := PygameGamepadController.conduct_survey_of_controls pad in
  m (exec m s) = m s.
Proof.
  cbv zeta. unfold exec.
  destruct (get_axis pad (GamePadAxe.value GamePadAxe.LEFT_STICK_X))
    as [vx|e] eqn:Hx.
  - destruct (get_axis pad (GamePadAxe.value GamePadAxe.LEFT_STICK_Y))
      as [vy|e] eqn:Hy.
    + rewrite (gamepad_survey_run pad vx vy s Hx Hy). cbn [snd].
      rewrite (gamepad_survey_run pad vx vy _ Hx Hy).
      destruct s as [g dz [u r d l]]. cbn.
      split_tests; reflexivity.
    + rewrite (gamepad_survey_raise_y pad vx e s Hx Hy). cbn [snd].
      rewrite (gamepad_survey_raise_y pad vx e _ Hx Hy).
      destruct s as [g dz [u r d l]]. cbn.
      split_tests; reflexivity.
  - rewrite (gamepad_survey_raise_x pad e s Hx). cbn [snd].
    apply gamepad_survey_raise_x. exact Hx.
Qed.

(** C7.  For every state of the device, also one whose polling call raises,
    and every prior state of the controller, a second survey under the same
    device state ends as the first did and leaves the controller, so the
    flag and the value of each of its four controls, as the first left it;
    for the keyboard and for the gamepad. *)
Theorem survey_twice_same_state :
  (forall (host : Keyboard) (s : PygameKeyboardController.t),
      let m := PygameKeyboardController.conduct_survey_of_controls host in
      outcome m (exec m s) = outcome m s /\
      exec m (exec m s) = exec m s /\
      controls_state (PygameKeyboardController.base (exec m (exec m s))) =
      controls_state (PygameKeyboardController.base (exec m s))) /\
  (forall (pad : Joystick) (s : PygameGamepadController.t),
      let m := PygameGamepadController.conduct_survey_of_controls pad in
      outcome m (exec m s) = outcome m s /\
      exec m (exec m s) = exec m s /\
      controls_state (PygameGamepadController.base (exec m (exec m s))) =
      controls_state (PygameGamepadController.base (exec m s))).
Proof.
  split.
  - intros host s m.
    assert (E : exec m (exec m s) = exec m s).
    { unfold exec at 1 3. unfold m.
      rewrite (keyboard_survey_idempotent host s). reflexivity. }
    split; [|split].
    + unfold outcome at 1 2. unfold m.
      rewrite (keyboard_survey_idempotent host s). reflexivity.
    + exact E.
    + rewrite E. reflexivity.
  - intros pad s m.
    assert (E : exec m (exec m s) = exec m s).
    { unfold exec at 1 3. unfold m.
      rewrite (gamepad_survey_idempotent pad s). reflexivity. }
    split; [|split].
    + unfold outcome at 1 2. unfold m.
      rewrite (gamepad_survey_idempotent pad s). reflexivity.
    + exact E.
    + rewrite E. reflexivity.
Qed.

(** ** Reset, then survey *)

Lemma keyboard_reset_then_survey
      (st : settings.ControlSettings) (host : Keyboard)
      (s : PygameKeyboardController.t) :
  bindings (PygameKeyboardController.base s) =
  bindings (PygameKeyboardController.base (PygameKeyboardController.init st)) ->
  controls_state
    (PygameKeyboardController.base
       (exec (PygameKeyboardController.conduct_survey_of_controls host)
             (PygameKeyboardController.deactivate_all_controls s))) =
  controls_state
    (PygameKeyboardController.base
       (exec (PygameKeyboardController.conduct_survey_of_controls host)
             (PygameKeyboardController.init st))).
Proof.
  destruct s as [st' [[ku au vu] [kr ar vr] [kd ad vd] [kl al vl]]].
  unfold bindings. cbn. intros E. injection E as -> -> -> ->.
  unfold exec.
  destruct (get_pressed host) as [keys|e] eqn:Hk.
  - rewrite !(keyboard_survey_run host keys _ Hk). cbn.
    unfold controls_state, control_state. cbn.
    split_tests; reflexivity.
  - rewrite !(keyboard_survey_raise host e _ Hk). reflexivity.
Qed.

Lemma gamepad_reset_then_survey
      (pad : Joystick) (p : nat) (s : PygameGamepadController.t) :
  PygameGamepadController._dead_zone s =
  PygameGamepadController._dead_zone (PygameGamepadController.with_game_pad p) ->
  controls_state
    (PygameGamepadController.base
       (exec (PygameGamepadController.conduct_survey_of_controls pad)
             (PygameGamepadController.deactivate_all_controls s))) =
  controls_state
    (PygameGamepadController.base
       (exec (PygameGamepadController.conduct_survey_of_controls pad)
             (PygameGamepadController.with_game_pad p))).
Proof.
  destruct s as [g dz [u r d l]]. cbn [PygameGamepadController._dead_zone
    PygameGamepadController.with_game_pad]. intros ->.
  unfold exec.
  destruct (get_axis pad (GamePadAxe.value GamePadAxe.LEFT_STICK_X))
    as [vx|e] eqn:Hx.
  - destruct (get_axis pad (GamePadAxe.value GamePadAxe.LEFT_STICK_Y))
      as [vy|e] eqn:Hy.
    + rewrite !(gamepad_survey_run pad vx vy _ Hx Hy). cbn.
      unfold controls_state, control_state. cbn.
      split_tests; reflexivity.
    + rewrite !(gamepad_survey_raise_y pad vx e _ Hx Hy). cbn.
      unfold controls_state, control_state. cbn.
      split_tests; reflexivity.
  - rewrite !(gamepad_survey_raise_x pad e _ Hx). reflexivity.
Qed.

(** C8.  For every state of the device and every prior state of a
    controller, [deactivate_all_controls] followed by a survey leaves on the
    four controls the flags and values that one survey under that device
    state leaves on a freshly constructed controller of the same kind: for
    the keyboard, the controller built from the settings whose key codes
    the prior state is bound to; for the gamepad, the controller the
    constructor builds, whose threshold the prior state has. *)
Theorem reset_then_survey_as_fresh :
  (forall (st : settings.ControlSettings) (host : Keyboard)
          (s : PygameKeyboardController.t),
      bindings (PygameKeyboardController.base s) =
      bindings (PygameKeyboardController.base
                  (PygameKeyboardController.init st)) ->
      controls_state
        (PygameKeyboardController.base
           (exec (PygameKeyboardController.conduct_survey_of_controls host)
                 (PygameKeyboardController.deactivate_all_controls s))) =
      controls_state
        (PygameKeyboardController.base
           (exec (PygameKeyboardController.conduct_survey_of_controls host)
                 (PygameKeyboardController.init st)))) /\
  (forall (n : nat) (pad : Joystick) (g0 s : PygameGamepadController.t),
      PygameGamepadController.init n = Ok g0 ->
      PygameGamepadController._dead_zone s =
      PygameGamepadController._dead_zone g0 ->
      controls_state
        (PygameGamepadController.base
           (exec (PygameGamepadController.conduct_survey_of_controls pad)
                 (PygameGamepadController.deactivate_all_controls s))) =
      controls_state
        (PygameGamepadController.base
           (exec (PygameGamepadController.conduct_survey_of_controls pad) g0))).
Proof.
  split.
  - exact keyboard_reset_then_survey.
  - intros n pad g0 s. unfold PygameGamepadController.init.
    destruct (nth_error (seq 0 n) 0) as [p|]; [|discriminate].
    intros E. injection E as <-. apply gamepad_reset_then_survey.
Qed.

Lemma reset_then_survey_as_fresh_witness :
  let k0 := PygameKeyboardController.init arrow_keys in
  let up_key := settings.value (settings.up arrow_keys) in
  let left_key := settings.value (settings.left arrow_keys) in
  let k1 :=
    exec (PygameKeyboardController.conduct_survey_of_controls
            (keyboard_with (only_key up_key))) k0 in
  let g0 := PygameGamepadController.with_game_pad 0 in
  let g1 :=
    exec (PygameGamepadController.conduct_survey_of_controls
            (joystick_with (6 # 10) (1 # 2))) g0 in
  controls_state
    (PygameKeyboardController.base
       (exec (PygameKeyboardController.conduct_survey_of_controls
                (keyboard_with (only_key left_key)))
             (PygameKeyboardController.deactivate_all_controls k1))) =
  ((false, 0), (false, 0), (false, 0), (true, 1)) /\
  controls_state
    (PygameGamepadController.base
       (exec (PygameGamepadController.conduct_survey_of_controls
                (joystick_with (-1) 0))
             (PygameGamepadController.deactivate_all_controls g1))) =
  ((false, 0), (false, 0), (false, 0), (true, -1)).
Proof.
  cbv zeta.
  destruct reset_then_survey_as_fresh as [Hk Hg].
  split.
  - rewrite (Hk arrow_keys); reflexivity.
  - rewrite (Hg 1%nat _ (PygameGamepadController.with_game_pad 0));
      reflexivity.
Defined.

(** ** Surveys never deactivate *)

Ltac kept_of_test :=
  match goal with
  | |- Control.activated _ = true -> Control.activated (if ?b then _ else _) = true =>
      destruct b; [intros _; reflexivity | intros H; exact H]
  | |- _ -> _ => intros H; exact H
  end.

Lemma keyboard_survey_stays_activated
      (host : Keyboard) (s : PygameKeyboardController.t) :
  stays_activated
    (PygameKeyboardController.base s)
    (PygameKeyboardController.base
       (exec (PygameKeyboardController.conduct_survey_of_controls host) s)).
Proof.
  unfold exec.
  destruct (get_pressed host) as [keys|e] eqn:Hk.
  - rewrite (keyboard_survey_run host keys s Hk).
    split4; cbn; kept_of_test.
  - rewrite (keyboard_survey_raise host e s Hk).
    split4; cbn; kept_of_test.
Qed.

Lemma gamepad_survey_stays_activated
      (pad : Joystick) (s : PygameGamepadController.t) :
  stays_activated
    (PygameGamepadController.base s)
    (PygameGamepadController.base
       (exec (PygameGamepadController.conduct_survey_of_controls pad) s)).
Proof.
  unfold exec.
  destruct (get_axis pad (GamePadAxe.value GamePadAxe.LEFT_STICK_X))
    as [vx|e] eqn:Hx.
  - destruct (get_axis pad (GamePadAxe.value GamePadAxe.LEFT_STICK_Y))
      as [vy|e] eqn:Hy.
    + rewrite (gamepad_survey_run pad vx vy s Hx Hy).
      split4; cbn; kept_of_test.
    + rewrite (gamepad_survey_raise_y pad vx e s Hx Hy).
      split4; cbn; kept_of_test.
  - rewrite (gamepad_survey_raise_x pad e s Hx).
    split4; cbn; kept_of_test.
Qed.

(** C10.  For the keyboard and for the gamepad, for every state of the
    device and every prior state, each control that is activated before
    [conduct_survey_of_controls] is activated after it.  Of the methods of
    Control, [activate] sets the flag and [update_key_number] keeps it;
    [deactivate] clears it, and [deactivate_all_controls] clears all four. *)
Theorem survey_never_deactivates :
  (forall (host : Keyboard) (s : PygameKeyboardController.t),
      stays_activated
        (PygameKeyboardController.base s)
        (PygameKeyboardController.base
           (exec (PygameKeyboardController.conduct_survey_of_controls host) s))) /\
  (forall (pad : Joystick) (s : PygameGamepadController.t),
      stays_activated
        (PygameGamepadController.base s)
        (PygameGamepadController.base
           (exec (PygameGamepadController.conduct_survey_of_controls pad) s))) /\
  (forall c v, Control.activated (Control.activate c v) = true) /\
  (forall c k,
      Control.activated (Control.update_key_number c k) = Control.activated c) /\
  (forall c, Control.activated (Control.deactivate c) = false) /\
  (forall c, all_deactivated (Controller.deactivate_all_controls c)).
Proof.
  split; [exact keyboard_survey_stays_activated|].
  split; [exact gamepad_survey_stays_activated|].
  split; [reflexivity|].
  split; [reflexivity|].
  split; [reflexivity|].
  intros c. split4; reflexivity.
Qed.

Lemma survey_never_deactivates_witness :
  let g0 := PygameGamepadController.with_game_pad 0 in
  let g1 :=
    exec (PygameGamepadController.conduct_survey_of_controls
            (joystick_with (6 # 10) 0)) g0 in
  let g2 :=
    exec (PygameGamepadController.conduct_survey_of_controls
            (joystick_with 0 0)) g1 in
  Control.activated (Controller.move_right (PygameGamepadController.base g1))
    = true /\
  Control.activated (Controller.move_right (PygameGamepadController.base g2))
    = true.
Proof.
  cbv zeta. split.
  - reflexivity.
  - destruct survey_never_deactivates as (_ & Hg & _).
    destruct (Hg (joystick_with 0 0)
                 (exec (PygameGamepadController.conduct_survey_of_controls
                          (joystick_with (6 # 10) 0))
                       (PygameGamepadController.with_game_pad 0)))
      as (_ & Hr & _).
    apply Hr. reflexivity.
Defined.

(** ** A device that cannot be polled *)

(** With no joystick connected the constructor of the gamepad controller
    raises [IndexError].  With a device whose polling call raises, the
    survey of a controller whose [right] is activated raises that exception
    and [right] is still activated after it; for the gamepad and for the
    keyboard. *)
Lemma survey_unavailable_device_raises_at :
  let g1 :=
    exec (PygameGamepadController.conduct_survey_of_controls
            (joystick_with (6 # 10) 0))
         (PygameGamepadController.with_game_pad 0) in
  let k0 := PygameKeyboardController.init arrow_keys in
  let k1 :=
    exec (PygameKeyboardController.conduct_survey_of_controls
            (keyboard_with (only_key (settings.value (settings.right arrow_keys)))))
         k0 in
  PygameGamepadController.init 0 = Raise IndexError /\
  (outcome (PygameGamepadController.conduct_survey_of_controls
              joystick_unavailable) g1 = Raise pygame_error /\
   control_state
     (Controller.move_right
        (PygameGamepadController.base
           (exec (PygameGamepadController.conduct_survey_of_controls
                    joystick_unavailable) g1))) = (true, 6 # 10)) /\
  (outcome (PygameKeyboardController.conduct_survey_of_controls
              keyboard_unavailable) k1 = Raise pygame_error /\
   control_state
     (Controller.move_right
        (PygameKeyboardController.base
           (exec (PygameKeyboardController.conduct_survey_of_controls
                    keyboard_unavailable) k1))) = (true, 1)).
Proof.
  cbv zeta. repeat split; reflexivity.
Qed.

(** C9, as the code has it.  When the polling call of the device raises,
    [conduct_survey_of_controls] raises the same exception to its caller
    and deactivates no control: the keyboard controller is left as it was;
    the gamepad controller is left as it was when the first axis cannot be
    read, and with [up] and [down] as they were and every activated control
    still activated when only the second cannot.  With no joystick
    connected the constructor of the gamepad controller raises
    [IndexError]. *)
Theorem survey_propagates_device_error :
  (forall (host : Keyboard) (e : exception) (s : PygameKeyboardController.t),
      get_pressed host = Raise e ->
      PygameKeyboardController.conduct_survey_of_controls host s
      = (Raise e, s)) /\
  (forall (pad : Joystick) (e : exception) (s : PygameGamepadController.t),
      get_axis pad (GamePadAxe.value GamePadAxe.LEFT_STICK_X) = Raise e ->
      PygameGamepadController.conduct_survey_of_controls pad s
      = (Raise e, s)) /\
  (forall (pad : Joystick) (vx : Q) (e : exception)
          (s : PygameGamepadController.t),
      get_axis pad (GamePadAxe.value GamePadAxe.LEFT_STICK_X) = Ok vx ->
      get_axis pad (GamePadAxe.value GamePadAxe.LEFT_STICK_Y) = Raise e ->
      let m := PygameGamepadController.conduct_survey_of_controls pad in
      outcome m s = Raise e /\
      Controller.move_up (PygameGamepadController.base (exec m s)) =
      Controller.move_up (PygameGamepadController.base s) /\
      Controller.move_down (PygameGamepadController.base (exec m s)) =
      Controller.move_down (PygameGamepadController.base s) /\
      stays_activated (PygameGamepadController.base s)
                      (PygameGamepadController.base (exec m s))) /\
  PygameGamepadController.init 0 = Raise IndexError.
Proof.
  split; [exact keyboard_survey_raise|].
  split; [exact gamepad_survey_raise_x|].
  split; [|reflexivity].
  intros pad vx e s Hx Hy m. split; [|split; [|split]].
  - unfold outcome, m. rewrite (gamepad_survey_raise_y pad vx e s Hx Hy).
    reflexivity.
  - unfold exec, m. rewrite (gamepad_survey_raise_y pad vx e s Hx Hy).
    reflexivity.
  - unfold exec, m. rewrite (gamepad_survey_raise_y pad vx e s Hx Hy).
    reflexivity.
  - apply gamepad_survey_stays_activated.
Qed.

Lemma survey_propagates_device_error_witness :
  let k0 := PygameKeyboardController.init arrow_keys in
  let g0 := PygameGamepadController.with_game_pad 0 in
  PygameKeyboardController.conduct_survey_of_controls keyboard_unavailable k0
  = (Raise pygame_error, k0) /\
  PygameGamepadController.conduct_survey_of_controls joystick_unavailable g0
  = (Raise pygame_error, g0).
Proof.
  cbv zeta.
  destruct survey_propagates_device_error as (Hk & Hg & _).
  split.
  - apply Hk. reflexivity.
  - apply Hg. reflexivity.
Defined.

(** ** Scenarios of the mover *)

Lemma move_character_priority_witness :
  let c :=
    {| Controller.move_up := Control.activate (Control.init 0) 2;
       Controller.move_right := Control.init 0;
       Controller.move_down := Control.activate (Control.init 0) 5;
       Controller.move_left := Control.activate (Control.init 0) (-3) |} in
  let ch := Character.init {| Point.x := 300; Point.y := 100 |} in
  Character.location (Mover.move_character (Mover.init c) ch)
  = {| Point.x := 297; Point.y := 98 |}.
Proof.
  cbv zeta.
  destruct (move_character_priority
              (Mover.init
                 {| Controller.move_up := Control.activate (Control.init 0) 2;
                    Controller.move_right := Control.init 0;
                    Controller.move_down := Control.activate (Control.init 0) 5;
                    Controller.move_left :=
                      Control.activate (Control.init 0) (-3) |})
              (Character.init {| Point.x := 300; Point.y := 100 |}))
    as (_ & Hx & _ & Hy & _).
  specialize (Hx eq_refl eq_refl). specialize (Hy eq_refl).
  destruct (Character.location _) as [x y]. cbn in Hx, Hy.
  rewrite Hx, Hy. reflexivity.
Defined.

Lemma move_character_noop_witness :
  let k0 := PygameKeyboardController.init arrow_keys in
  let ch := Character.init {| Point.x := 300; Point.y := 300 |} in
  all_deactivated (PygameKeyboardController.base k0) /\
  Character.location
    (Mover.move_character (Mover.init (PygameKeyboardController.base k0)) ch)
  = {| Point.x := 300; Point.y := 300 |}.
Proof.
  cbv zeta. split.
  - split4; reflexivity.
  - apply (move_character_noop
             (Mover.init
                (PygameKeyboardController.base
                   (PygameKeyboardController.init arrow_keys)))
             (Character.init {| Point.x := 300; Point.y := 300 |})).
    split4; reflexivity.
Defined.

(** * Further properties of the code *)

(** ** The constructor of the gamepad controller *)

(** X1.  Whatever the number of joysticks, the constructor takes the first: it
    raises [IndexError] exactly when there is none, and otherwise builds
    the controller of joystick 0 with no control activated. *)
Theorem gamepad_init_takes_first (n : nat) :
  (n = 0%nat -> PygameGamepadController.init n = Raise IndexError) /\
  (n <> 0%nat ->
   PygameGamepadController.init n = Ok (PygameGamepadController.with_game_pad 0)) /\
  (forall g,
      PygameGamepadController.init n = Ok g ->
      n <> 0%nat /\
      PygameGamepadController._game_pad g = 0%nat /\
      all_deactivated (PygameGamepadController.base g)).
Proof.
  destruct n as [|n].
  - split; [reflexivity|]. split; [intros H; elim H; reflexivity|].
    intros g H. discriminate H.
  - split; [intros H; discriminate H|]. split; [reflexivity|].
    intros g H. cbn in H. injection H as <-.
    split; [discriminate|]. split; [reflexivity|].
    split4; reflexivity.
Qed.

Lemma gamepad_init_takes_first_witness :
  PygameGamepadController.init 3 = Ok (PygameGamepadController.with_game_pad 0).
Proof.
  destruct (gamepad_init_takes_first 3) as (_ & H & _).
  apply H. discriminate.
Defined.

(** ** What a survey and a reset leave alone *)

Lemma keyboard_survey_configuration
      (host : Keyboard) (s : PygameKeyboardController.t) :
  let s' := exec (PygameKeyboardController.conduct_survey_of_controls host) s in
  PygameKeyboardController._settings s' = PygameKeyboardController._settings s /\
  bindings (PygameKeyboardController.base s') =
  bindings (PygameKeyboardController.base s).
Proof.
  cbv zeta. unfold exec.
  destruct (get_pressed host) as [keys|e] eqn:Hk.
  - rewrite (keyboard_survey_run host keys s Hk).
    destruct s as [st [u r d l]]. unfold bindings. cbn.
    split; [reflexivity|]. split_tests; reflexivity.
  - rewrite (keyboard_survey_raise host e s Hk). split; reflexivity.
Qed.

Lemma gamepad_survey_configuration
      (pad : Joystick) (s : PygameGamepadController.t) :
  let s' := exec (PygameGamepadController.conduct_survey_of_controls pad) s in
  PygameGamepadController._game_pad s' = PygameGamepadController._game_pad s /\
  PygameGamepadController._dead_zone s' = PygameGamepadController._dead_zone s /\
  bindings (PygameGamepadController.base s') =
  bindings (PygameGamepadController.base s).
Proof.
  cbv zeta. unfold exec.
  destruct (get_axis pad (GamePadAxe.value GamePadAxe.LEFT_STICK_X))
    as [vx|e] eqn:Hx.
  - destruct (get_axis pad (GamePadAxe.value GamePadAxe.LEFT_STICK_Y))
      as [vy|e] eqn:Hy.
    + rewrite (gamepad_survey_run pad vx vy s Hx Hy).
      destruct s as [g dz [u r d l]]. unfold bindings. cbn.
      split; [reflexivity|]. split; [reflexivity|].
      split_tests; reflexivity.
    + rewrite (gamepad_survey_raise_y pad vx e s Hx Hy).
      destruct s as [g dz [u r d l]]. unfold bindings. cbn.
      split; [reflexivity|]. split; [reflexivity|].
      split_tests; reflexivity.
  - rewrite (gamepad_survey_raise_x pad e s Hx). repeat split; reflexivity.
Qed.

(** X2.  Neither a survey, whatever the device gives, nor
    [deactivate_all_controls] changes the configuration of a controller:
    the key codes the four controls are bound to, the stored settings of
    the keyboard controller, the joystick and the dead zone of the gamepad
    controller. *)
Theorem survey_and_reset_keep_configuration :
  (forall (host : Keyboard) (s : PygameKeyboardController.t),
      let s' :=
        exec (PygameKeyboardController.conduct_survey_of_controls host) s in
      PygameKeyboardController._settings s' =
      PygameKeyboardController._settings s /\
      bindings (PygameKeyboardController.base s') =
      bindings (PygameKeyboardController.base s)) /\
  (forall (pad : Joystick) (s : PygameGamepadController.t),
      let s' :=
        exec (PygameGamepadController.conduct_survey_of_controls pad) s in
      PygameGamepadController._game_pad s' =
      PygameGamepadController._game_pad s /\
      PygameGamepadController._dead_zone s' =
      PygameGamepadController._dead_zone s /\
      bindings (PygameGamepadController.base s') =
      bindings (PygameGamepadController.base s)) /\
  (forall c : Controller.t,
      bindings (Controller.deactivate_all_controls c) = bindings c).
Proof.
  split; [exact keyboard_survey_configuration|].
  split; [exact gamepad_survey_configuration|].
  intros c. reflexivity.
Qed.

(** ** What the controls hold after the controller's own methods *)

Lemma digital_init (k : Z) : digital (Control.init k).
Proof. left. reflexivity. Qed.

Lemma digital_deactivate (c : Control.t) : digital (Control.deactivate c).
Proof. left. reflexivity. Qed.

Lemma digital_pressed (b : bool) (c : Control.t) :
  digital c -> digital (if b then Control.activate c 1 else c).
Proof.
  intros H. destruct b; [right; reflexivity | exact H].
Qed.

Lemma keyboard_reachable_inv
      (st : settings.ControlSettings) (s : PygameKeyboardController.t) :
  keyboard_reachable st s ->
  PygameKeyboardController._settings s = st /\
  bindings (PygameKeyboardController.base s) =
  bindings (PygameKeyboardController.base (PygameKeyboardController.init st)) /\
  digital (Controller.move_up (PygameKeyboardController.base s)) /\
  digital (Controller.move_right (PygameKeyboardController.base s)) /\
  digital (Controller.move_down (PygameKeyboardController.base s)) /\
  digital (Controller.move_left (PygameKeyboardController.base s)).
Proof.
  induction 1 as [|host s Hs IH|s Hs IH].
  - split; [reflexivity|]. split; [reflexivity|].
    split4; apply digital_init.
  - destruct IH as (Hst & Hb & Hu & Hr & Hd & Hl).
    destruct (keyboard_survey_configuration host s) as [Est Eb].
    split; [rewrite Est; exact Hst|]. split; [rewrite Eb; exact Hb|].
    unfold exec.
    destruct (get_pressed host) as [keys|e] eqn:Hk.
    + rewrite (keyboard_survey_run host keys s Hk).
      split4; cbn; apply digital_pressed; assumption.
    + rewrite (keyboard_survey_raise host e s Hk).
      split4; assumption.
  - destruct IH as (Hst & Hb & _).
    split; [exact Hst|]. split; [exact Hb|].
    split4; apply digital_deactivate.
Qed.

(** X3.  On a keyboard controller built from [st] and then only surveyed and
    reset, under any states of the device: the stored settings are [st],
    the four controls are bound to the key codes of [st], and each control
    is either deactivated with value 0 or activated with value 1. *)
Theorem keyboard_controls_are_digital
        (st : settings.ControlSettings) (s : PygameKeyboardController.t) :
  keyboard_reachable st s ->
  PygameKeyboardController._settings s = st /\
  bindings (PygameKeyboardController.base s) =
    (settings.value (settings.up st), settings.value (settings.right st),
     settings.value (settings.down st), settings.value (settings.left st)) /\
  digital (Controller.move_up (PygameKeyboardController.base s)) /\
  digital (Controller.move_right (PygameKeyboardController.base s)) /\
  digital (Controller.move_down (PygameKeyboardController.base s)) /\
  digital (Controller.move_left (PygameKeyboardController.base s)).
Proof.
  intros H. exact (keyboard_reachable_inv st s H).
Qed.

Lemma keyboard_controls_are_digital_witness :
  let s :=
    exec (PygameKeyboardController.conduct_survey_of_controls
            (keyboard_with (only_key 1073741906)))
         (PygameKeyboardController.deactivate_all_controls
            (exec (PygameKeyboardController.conduct_survey_of_controls
                     keyboard_unavailable)
                  (PygameKeyboardController.init arrow_keys))) in
  digital (Controller.move_up (PygameKeyboardController.base s)) /\
  digital (Controller.move_left (PygameKeyboardController.base s)).
Proof.
  cbv zeta.
  destruct (keyboard_controls_are_digital arrow_keys _
              (keyboard_reachable_survey arrow_keys
                 (keyboard_with (only_key 1073741906)) _
                 (keyboard_reachable_reset arrow_keys _
                    (keyboard_reachable_survey arrow_keys
                       keyboard_unavailable _
                       (keyboard_reachable_init arrow_keys)))))
    as (_ & _ & Hu & _ & _ & Hl).
  split; assumption.
Defined.

(** The tests of the gamepad survey bound the value that is stored. *)
Lemma test_positive_side (v d : Q) :
  truthy v && Qgtb (Qabs v) d && Qgtb v 0 = true -> d < v.
Proof.
  intros H. apply andb_true_iff in H. destruct H as [H Hv].
  apply andb_true_iff in H. destruct H as [_ Hd].
  apply Qgtb_true_iff in Hd. apply Qgtb_true_iff in Hv.
  assert (E : Qabs v == v) by (apply Qabs_pos; lra).
  lra.
Qed.

Lemma test_negative_side (v d : Q) :
  truthy v && Qgtb (Qabs v) d && Qltb v 0 = true -> v < - d.
Proof.
  intros H. apply andb_true_iff in H. destruct H as [H Hv].
  apply andb_true_iff in H. destruct H as [_ Hd].
  apply Qgtb_true_iff in Hd. apply Qltb_true_iff in Hv.
  assert (E : Qabs v == - v) by (apply Qabs_neg; lra).
  lra.
Qed.

Lemma test_not_positive_side (v d : Q) :
  truthy v && Qgtb (Qabs v) d && negb (Qgtb v 0) = true -> v < - d.
Proof.
  intros H. apply andb_true_iff in H. destruct H as [H Hv].
  apply andb_true_iff in H. destruct H as [_ Hd].
  apply Qgtb_true_iff in Hd. apply negb_true_iff in Hv.
  apply Qgtb_false_iff in Hv.
  assert (E : Qabs v == - v) by (apply Qabs_neg; exact Hv).
  lra.
Qed.

Lemma test_not_negative_side (v d : Q) :
  truthy v && Qgtb (Qabs v) d && negb (Qltb v 0) = true -> d < v.
Proof.
  intros H. apply andb_true_iff in H. destruct H as [H Hv].
  apply andb_true_iff in H. destruct H as [_ Hd].
  apply Qgtb_true_iff in Hd. apply negb_true_iff in Hv.
  unfold Qltb in Hv. apply Qgtb_false_iff in Hv.
  assert (E : Qabs v == v) by (apply Qabs_pos; exact Hv).
  lra.
Qed.

Ltac side_of_test IH :=
  match goal with
  | |- Control.activated (if ?b then _ else _) = true -> _ =>
      let E := fresh "E" in
      destruct b eqn:E; cbn;
      [ intros _;
        first [ exact (test_positive_side _ _ E)
              | exact (test_negative_side _ _ E)
              | exact (test_not_positive_side _ _ E)
              | exact (test_not_negative_side _ _ E) ]
      | exact IH ]
  | |- _ => exact IH
  end.

Lemma gamepad_reachable_inv (s : PygameGamepadController.t) :
  gamepad_reachable s ->
  let d := PygameGamepadController._dead_zone s in
  let b := PygameGamepadController.base s in
  d = 5 # 100 /\
  PygameGamepadController._game_pad s = 0%nat /\
  (Control.activated (Controller.move_up b) = true ->
   Control.value (Controller.move_up b) < - d) /\
  (Control.activated (Controller.move_right b) = true ->
   d < Control.value (Controller.move_right b)) /\
  (Control.activated (Controller.move_down b) = true ->
   d < Control.value (Controller.move_down b)) /\
  (Control.activated (Controller.move_left b) = true ->
   Control.value (Controller.move_left b) < - d).
Proof.
  cbv zeta. induction 1 as [n g Hg|pad s Hs IH|s Hs IH].
  - destruct n as [|n]; [discriminate Hg|].
    cbn in Hg. injection Hg as <-.
    split; [reflexivity|]. split; [reflexivity|].
    split4; cbn; intros E; discriminate E.
  - destruct IH as (Hd & Hp & Hu & Hr & Hdn & Hl).
    destruct (gamepad_survey_configuration pad s) as (Ep & Ed & _).
    split; [rewrite Ed; exact Hd|]. split; [rewrite Ep; exact Hp|].
    rewrite Ed. clear Ep Ed. unfold exec.
    destruct (get_axis pad (GamePadAxe.value GamePadAxe.LEFT_STICK_X))
      as [vx|e] eqn:Hx.
    + destruct (get_axis pad (GamePadAxe.value GamePadAxe.LEFT_STICK_Y))
        as [vy|e] eqn:Hy.
      * rewrite (gamepad_survey_run pad vx vy s Hx Hy). cbn.
        split4; [side_of_test Hu | side_of_test Hr
                 | side_of_test Hdn | side_of_test Hl].
      * rewrite (gamepad_survey_raise_y pad vx e s Hx Hy). cbn.
        split4; [side_of_test Hu | side_of_test Hr
                 | side_of_test Hdn | side_of_test Hl].
    + rewrite (gamepad_survey_raise_x pad e s Hx). cbn.
      split4; assumption.
  - destruct IH as (Hd & Hp & _).
    split; [exact Hd|]. split; [exact Hp|].
    split4; cbn; intros E; discriminate E.
Qed.

(** X4.  On a gamepad controller built by the constructor and then only surveyed
    and reset, under any states of the device: the joystick is joystick 0,
    the dead zone is 0.05, and every activated control holds a reading
    beyond the dead zone on its own side: above 0.05 for [right] and
    [down], below -0.05 for [left] and [up]. *)
Theorem gamepad_controls_beyond_dead_zone (s : PygameGamepadController.t) :
  gamepad_reachable s ->
  let b := PygameGamepadController.base s in
  PygameGamepadController._dead_zone s = 5 # 100 /\
  PygameGamepadController._game_pad s = 0%nat /\
  (Control.activated (Controller.move_up b) = true ->
   Control.value (Controller.move_up b) < - (5 # 100)) /\
  (Control.activated (Controller.move_right b) = true ->
   5 # 100 < Control.value (Controller.move_right b)) /\
  (Control.activated (Controller.move_down b) = true ->
   5 # 100 < Control.value (Controller.move_down b)) /\
  (Control.activated (Controller.move_left b) = true ->
   Control.value (Controller.move_left b) < - (5 # 100)).
Proof.
  intros H. cbv zeta.
  destruct (gamepad_reachable_inv s H) as (Hd & Hp & Hu & Hr & Hdn & Hl).
  rewrite Hd in Hu, Hr, Hdn, Hl.
  split; [exact Hd|]. split; [exact Hp|]. split4; assumption.
Qed.

Lemma gamepad_controls_beyond_dead_zone_witness :
  let s :=
    exec (PygameGamepadController.conduct_survey_of_controls
            (joystick_with (-6 # 10) (3 # 100)))
         (PygameGamepadController.with_game_pad 0) in
  Control.value (Controller.move_left (PygameGamepadController.base s))
  < - (5 # 100).
Proof.
  cbv zeta.
  destruct (gamepad_controls_beyond_dead_zone _
              (gamepad_reachable_survey (joystick_with (-6 # 10) (3 # 100)) _
                 (gamepad_reachable_init 1 _ eq_refl)))
    as (_ & _ & _ & _ & _ & Hl).
  apply Hl. reflexivity.
Defined.



(** ** One tick of the gamepad: reset, survey, move *)




(** ** Keyboard surveys in a row *)

Lemma keyboard_surveys_cons
      (keys : Z -> bool) (tables : list (Z -> bool))
      (s : PygameKeyboardController.t) :
  keyboard_surveys (keys :: tables) s =
  keyboard_surveys tables
    (exec (PygameKeyboardController.conduct_survey_of_controls
             (keyboard_with keys)) s).
Proof. reflexivity. Qed.

Lemma pressed_then_later (b rest : bool) (c : Control.t) :
  let c1 := if b then Control.activate c 1 else c in
  (if rest then Control.activate c1 1 else c1) =
  (if b || rest then Control.activate c 1 else c).
Proof. destruct b, rest; reflexivity. Qed.

Lemma pressed_key_number (b : bool) (c : Control.t) :
  Control.key_number (if b then Control.activate c 1 else c) =
  Control.key_number c.
Proof. destruct b; reflexivity. Qed.

(** X7.  After any number of keyboard surveys with no reset in between, a
    control is activated with value 1 when its key was pressed in at least
    one of the tables, and is the control it was at the start otherwise:
    activation is the disjunction over the surveys, a released key never
    shows. *)
Theorem keyboard_surveys_accumulate
        (tables : list (Z -> bool)) (s : PygameKeyboardController.t) :
  let b := PygameKeyboardController.base s in
  let b' := PygameKeyboardController.base (keyboard_surveys tables s) in
  let pressed (c : Control.t) :=
    existsb (fun keys => keys (Control.key_number c)) tables in
  Controller.move_up b' =
    (if pressed (Controller.move_up b)
     then Control.activate (Controller.move_up b) 1
     else Controller.move_up b) /\
  Controller.move_right b' =
    (if pressed (Controller.move_right b)
     then Control.activate (Controller.move_right b) 1
     else Controller.move_right b) /\
  Controller.move_down b' =
    (if pressed (Controller.move_down b)
     then Control.activate (Controller.move_down b) 1
     else Controller.move_down b) /\
  Controller.move_left b' =
    (if pressed (Controller.move_left b)
     then Control.activate (Controller.move_left b) 1
     else Controller.move_left b).
Proof.
  cbv zeta. revert s. induction tables as [|keys tables IH]; intros s.
  - split4; reflexivity.
  - rewrite keyboard_surveys_cons.
    destruct (IH (exec (PygameKeyboardController.conduct_survey_of_controls
                          (keyboard_with keys)) s)) as (Eu & Er & Ed & El).
    clear IH. rewrite Eu, Er, Ed, El. clear Eu Er Ed El.
    unfold exec.
    rewrite (keyboard_survey_run (keyboard_with keys) keys s eq_refl).
    cbn [snd PygameKeyboardController.base Controller.move_up
         Controller.move_right Controller.move_down Controller.move_left
         existsb].
    split4;
      match goal with
      | |- context [Control.key_number (if ?b then Control.activate ?c 1 else ?c)] =>
          rewrite (pressed_key_number b c)
      end;
      match goal with
      | |- (if ?rest then _ else _) = (if ?b || _ then Control.activate ?c 1 else _) =>
          exact (pressed_then_later b rest c)
      end.
Qed.

(** ** [src/main.py]: the eight-way chain *)




(** ** The chain against the keyboard controller and the mover *)



(** ** [tests/change_controllers.py]: the current controller *)

Section ChangeController.

Context {C : Type} (accept_activated : C -> bool).

Let step := Test._change_controller C accept_activated.

Lemma test_inv_index_in_range (s : Test.t C) :
  Test_inv s ->
  (Test._controller_index C s < length (Test._controllers C s))%nat.
Proof.
  unfold Test_inv. intros H. apply nth_error_Some. rewrite H. discriminate.
Qed.

Lemma next_index_mod (i n : nat) :
  (i < n)%nat ->
  (if (i + 1 =? n)%nat then 0%nat else (i + 1)%nat) = ((i + 1) mod n)%nat.
Proof.
  intros Hi. destruct (Nat.eqb_spec (i + 1) n) as [E|E].
  - rewrite E. symmetry. apply Nat.Div0.mod_same.
  - symmetry. apply Nat.mod_small. lia.
Qed.

Lemma change_controller_skip (s : Test.t C) :
  accept_activated (Test._controller C s) = false ->
  step s = (Ok tt, s).
Proof.
  intros Ha. unfold step, Test._change_controller, bind, gets, when, ret.
  cbn. rewrite Ha. reflexivity.
Qed.

Lemma change_controller_next (s : Test.t C) :
  Test_inv s ->
  accept_activated (Test._controller C s) = true ->
  exists c',
    nth_error (Test._controllers C s)
              ((Test._controller_index C s + 1)
                 mod length (Test._controllers C s)) = Some c' /\
    step s =
    (Ok tt,
     {| Test._controllers := Test._controllers C s;
        Test._controller_index :=
          ((Test._controller_index C s + 1)
             mod length (Test._controllers C s))%nat;
        Test._controller := c' |}).
Proof.
  intros Hinv Ha. pose proof (test_inv_index_in_range s Hinv) as Hlt.
  destruct s as [l i c]. cbn in *.
  assert (Hn : ((i + 1) mod length l < length l)%nat)
    by (apply Nat.mod_upper_bound; lia).
  destruct (nth_error l ((i + 1) mod length l)) as [c'|] eqn:Hc'.
  2:{ apply nth_error_None in Hc'. lia. }
  exists c'. split; [reflexivity|].
  unfold step, Test._change_controller, bind, gets, modify, when, ret, call.
  cbn. rewrite Ha. cbn.
  rewrite <- (next_index_mod i (length l) Hlt) in Hc' |- *.
  destruct (i + 1 =? length l)%nat; cbn; unfold Test.getitem;
    rewrite Hc'; reflexivity.
Qed.

(** X10.  [_change_controller] on a state whose index names the current
    controller never raises and keeps that property and the list; it does
    nothing when [accept] is not activated, and otherwise steps to the next
    controller of the list, from the last one back to the first. *)
Theorem change_controller_keeps_index (s : Test.t C) :
  Test_inv s ->
  let s' := exec step s in
  let n := length (Test._controllers C s) in
  outcome step s = Ok tt /\
  Test_inv s' /\
  Test._controllers C s' = Test._controllers C s /\
  (accept_activated (Test._controller C s) = false -> s' = s) /\
  (accept_activated (Test._controller C s) = true ->
   Test._controller_index C s' = ((Test._controller_index C s + 1) mod n)%nat).
Proof.
  intros Hinv. cbv zeta. unfold exec, outcome.
  destruct (accept_activated (Test._controller C s)) eqn:Ha.
  - destruct (change_controller_next s Hinv Ha) as (c' & Hc' & ->). cbn.
    split; [reflexivity|]. split; [exact Hc'|]. split; [reflexivity|].
    split; [discriminate | reflexivity].
  - rewrite (change_controller_skip s Ha). cbn.
    split; [reflexivity|]. split; [exact Hinv|]. split; [reflexivity|].
    split; [reflexivity | discriminate].
Qed.

Lemma change_controller_iter (k : nat) (s : Test.t C) :
  Test_inv s ->
  (forall c, In c (Test._controllers C s) -> accept_activated c = true) ->
  let s' := Nat.iter k (exec step) s in
  Test_inv s' /\
  Test._controllers C s' = Test._controllers C s /\
  Test._controller_index C s' =
  ((Test._controller_index C s + k) mod length (Test._controllers C s))%nat.
Proof.
  intros Hinv Hall. cbv zeta. induction k as [|k IH].
  - cbn. split; [exact Hinv|]. split; [reflexivity|].
    rewrite Nat.add_0_r. symmetry. apply Nat.mod_small.
    apply test_inv_index_in_range. exact Hinv.
  - rewrite Nat.iter_succ. destruct IH as (Hinv' & Hl & Hi).
    set (sk := Nat.iter k (exec step) s) in *.
    assert (Ha : accept_activated (Test._controller C sk) = true).
    { apply Hall. rewrite <- Hl. apply (nth_error_In _ _ Hinv'). }
    destruct (change_controller_next sk Hinv' Ha) as (c' & Hc' & E).
    unfold exec. rewrite E. cbn.
    split; [exact Hc'|]. split; [exact Hl|].
    rewrite Hi, Hl. rewrite Nat.Div0.add_mod_idemp_l.
    f_equal. lia.
Qed.

(** X11.  When every controller of the list has [accept] activated, as many calls
    of [_change_controller] as the list has controllers bring the test back
    to the state it started from: same index, same current controller. *)
Theorem change_controller_full_cycle (s : Test.t C) :
  Test_inv s ->
  (forall c, In c (Test._controllers C s) -> accept_activated c = true) ->
  Nat.iter (length (Test._controllers C s)) (exec step) s = s.
Proof.
  intros Hinv Hall.
  destruct (change_controller_iter (length (Test._controllers C s)) s
              Hinv Hall) as (Hinv' & Hl & Hi).
  pose proof (test_inv_index_in_range s Hinv) as Hlt.
  set (s' := Nat.iter _ _ s) in *.
  assert (Hi' : Test._controller_index C s' = Test._controller_index C s).
  { rewrite Hi. rewrite <- Nat.Div0.add_mod_idemp_r.
    rewrite Nat.Div0.mod_same, Nat.add_0_r. apply Nat.mod_small. exact Hlt. }
  unfold Test_inv in Hinv, Hinv'. rewrite Hl, Hi', Hinv in Hinv'.
  injection Hinv' as Hc.
  destruct s' as [l' i' c'], s as [l i c]. cbn in *. subst. rewrite Hi'. reflexivity.
Qed.

End ChangeController.

(** [Test.__init__] raises [IndexError] on an empty list of controllers, and
    on any other list starts at index 0 with the first controller as the
    current one. *)
Theorem test_init_first_controller (C : Type) (controllers : list C) :
  (controllers = nil -> Test.init C controllers = Raise IndexError) /\
  (forall c rest,
      controllers = c :: rest ->
      exists s,
        Test.init C controllers = Ok s /\
        Test._controller_index C s = 0%nat /\
        Test._controller C s = c /\
        Test_inv s).
Proof.
  split.
  - intros ->. reflexivity.
  - intros c rest ->. eexists. split; [reflexivity|].
    split; [reflexivity|]. split; reflexivity.
Qed.

Lemma change_controller_keeps_index_witness :
  let s := Test.mk nat (10 :: 20 :: 30 :: 40 :: nil)%nat 3%nat 40%nat in
  Test._controller_index nat
    (exec (Test._change_controller nat (fun _ => true)) s) = 0%nat.
Proof.
  cbv zeta.
  destruct (change_controller_keeps_index
              (fun _ : nat => true)
              (Test.mk nat (10 :: 20 :: 30 :: 40 :: nil)%nat 3%nat 40%nat)
              eq_refl) as (_ & _ & _ & _ & H).
  exact (H eq_refl).
Defined.

Lemma change_controller_full_cycle_witness :
  let s := Test.mk nat (10 :: 20 :: 30 :: 40 :: nil)%nat 2%nat 30%nat in
  Nat.iter 4 (exec (Test._change_controller nat (fun _ => true))) s = s.
Proof.
  cbv zeta.
  apply (change_controller_full_cycle
           (fun _ : nat => true)
           (Test.mk nat (10 :: 20 :: 30 :: 40 :: nil)%nat 2%nat 30%nat)).
  - reflexivity.
  - intros c _. reflexivity.
Defined.

Lemma test_init_first_controller_witness :
  exists s,
    Test.init nat (10 :: 20 :: nil)%nat = Ok s /\
    Test._controller nat s = 10%nat.
Proof.
  destruct (test_init_first_controller nat (10 :: 20 :: nil)%nat) as [_ H].
  destruct (H 10%nat (20 :: nil)%nat eq_refl) as (s & E & _ & Hc & _).
  exists s. split; assumption.
Defined.

(** ** The mover on a keyboard controller *)




(** ** Several moves under one state of the controller *)




(** ** One tick of the keyboard: reset, then survey *)

(** X14.  After [deactivate_all_controls], a keyboard survey leaves each control
    activated with value 1 when the table reports its key pressed and
    deactivated with value 0 when it does not: once reset, the state of the
    controls is the table's, whatever the controls held before. *)
Theorem keyboard_tick_reflects_table
        (keys : Z -> bool) (s : PygameKeyboardController.t) :
  let b := PygameKeyboardController.base s in
  let b' :=
    PygameKeyboardController.base
      (exec (PygameKeyboardController.conduct_survey_of_controls
               (keyboard_with keys))
            (PygameKeyboardController.deactivate_all_controls s)) in
  let shown (c : Control.t) :=
    if keys (Control.key_number c) then (true, 1) else (false, 0) in
  control_state (Controller.move_up b') = shown (Controller.move_up b) /\
  control_state (Controller.move_right b') = shown (Controller.move_right b) /\
  control_state (Controller.move_down b') = shown (Controller.move_down b) /\
  control_state (Controller.move_left b') = shown (Controller.move_left b).
Proof.
  cbv zeta. unfold exec.
  rewrite (keyboard_survey_run (keyboard_with keys) keys _ eq_refl).
  destruct s as [st [u r d l]]. cbn.
  split4;
    match goal with
    | |- context [keys ?k] => destruct (keys k); reflexivity
    end.
Qed.

(** ** Rebinding a key *)

(** X15.  The keyboard survey reads the key codes from the controls, not from the
    stored settings: after [update_key_number k] on [right], the survey
    activates [right] when the table reports [k] pressed and leaves its
    state as it was otherwise, and the stored settings are untouched; and
    two controllers that differ only in their stored settings are left
    with the same controls by a survey. *)
Theorem keyboard_survey_follows_rebinding
        (host : Keyboard) (s : PygameKeyboardController.t) :
  (forall (keys : Z -> bool) (k : Z),
      get_pressed host = Ok keys ->
      let s1 :=
        PygameKeyboardController.inherited
          (Controller.on_move_right (fun c => Control.update_key_number c k))
          s in
      let s' :=
        exec (PygameKeyboardController.conduct_survey_of_controls host) s1 in
      Control.key_number
        (Controller.move_right (PygameKeyboardController.base s')) = k /\
      control_state (Controller.move_right (PygameKeyboardController.base s')) =
        (if keys k then (true, 1)
         else control_state
                (Controller.move_right (PygameKeyboardController.base s))) /\
      PygameKeyboardController._settings s' =
      PygameKeyboardController._settings s) /\
  (forall st : settings.ControlSettings,
      PygameKeyboardController.base
        (exec (PygameKeyboardController.conduct_survey_of_controls host)
              {| PygameKeyboardController._settings := st;
                 PygameKeyboardController.base :=
                   PygameKeyboardController.base s |}) =
      PygameKeyboardController.base
        (exec (PygameKeyboardController.conduct_survey_of_controls host) s)).
Proof.
  split.
  - intros keys k Hk. cbv zeta. unfold exec.
    rewrite (keyboard_survey_run host keys _ Hk).
    destruct s as [st [u r d l]]. cbn.
    destruct (keys k); repeat split; reflexivity.
  - intros st. unfold exec.
    destruct (get_pressed host) as [keys|e] eqn:Hk.
    + rewrite !(keyboard_survey_run host keys _ Hk). reflexivity.
    + rewrite !(keyboard_survey_raise host e _ Hk). reflexivity.
Qed.

Lemma keyboard_survey_follows_rebinding_witness :
  let s := PygameKeyboardController.init arrow_keys in
  let s1 :=
    PygameKeyboardController.inherited
      (Controller.on_move_right (fun c => Control.update_key_number c 100))
      s in
  control_state
    (Controller.move_right
       (PygameKeyboardController.base
          (exec (PygameKeyboardController.conduct_survey_of_controls
                   (keyboard_with (only_key 100))) s1)))
  = (true, 1).
Proof.
  cbv zeta.
  destruct (keyboard_survey_follows_rebinding
              (keyboard_with (only_key 100))
              (PygameKeyboardController.init arrow_keys)) as [H _].
  destruct (H (only_key 100) 100%Z eq_refl) as (_ & E & _).
  exact E.
Defined.

(** ** One side per axis on the gamepad *)

(** X16.  After [deactivate_all_controls], a gamepad survey never leaves both
    controls of an axis activated, whatever the device gives: [right] and
    [left] are not both activated, nor are [up] and [down]. *)
Theorem gamepad_tick_one_side_per_axis
        (pad : Joystick) (s : PygameGamepadController.t) :
  let b' :=
    PygameGamepadController.base
      (exec (PygameGamepadController.conduct_survey_of_controls pad)
            (PygameGamepadController.deactivate_all_controls s)) in
  Control.activated (Controller.move_right b') &&
  Control.activated (Controller.move_left b') = false /\
  Control.activated (Controller.move_up b') &&
  Control.activated (Controller.move_down b') = false.
Proof.
  cbv zeta. unfold exec.
  destruct (get_axis pad (GamePadAxe.value GamePadAxe.LEFT_STICK_X))
    as [vx|e] eqn:Hx.
  - destruct (get_axis pad (GamePadAxe.value GamePadAxe.LEFT_STICK_Y))
      as [vy|e] eqn:Hy.
    + rewrite (gamepad_survey_run pad vx vy _ Hx Hy).
      destruct s as [g dz [u r d l]]. cbn.
      destruct (truthy vx && Qgtb (Qabs vx) dz), (Qgtb vx 0),
               (truthy vy && Qgtb (Qabs vy) dz), (Qltb vy 0);
        split; reflexivity.
    + rewrite (gamepad_survey_raise_y pad vx e _ Hx Hy).
      destruct s as [g dz [u r d l]]. cbn.
      destruct (truthy vx && Qgtb (Qabs vx) dz), (Qgtb vx 0);
        split; reflexivity.
  - rewrite (gamepad_survey_raise_x pad e _ Hx).
    destruct s as [g dz [u r d l]]. split; reflexivity.
Qed.
